(** * Persistence and synchronisation core of the collaborative editor backend

    A shallow embedding of [backend/src/server.ts] and of the persistence
    class it imports ([custom-persistence]):

    - the text extractor [TextExtractor.extractTextFromYDoc];
    - the MongoDB persistence class [CustomMongoPersistence]
      ([getYDoc], [storeUpdate], [writeState], [fixCorruptedDocument],
      [destroy]);
    - the [bindState] / [writeState] hooks handed to [setPersistence], the
      update listener and its guard timeout;
    - the SIGINT / SIGTERM handlers.

    Two packages are not part of the repository and are kept as interfaces.
    Class [Yjs] has what the backend uses of the CRDT engine: the struct
    store of a document, its full-state encoding and the application of an
    update, to bytes and to whatever else the persistence class hands it.
    Class [Bson] has the conversion of a document name to an [ObjectId].
    Of the MongoDB driver the connection can fail; once it is open, the
    reads and writes of the collection are taken to succeed.  The registry of shared types ([ydoc.share]) and [Doc.get] /
    [Doc.getText] are modelled concretely, since the extractor reads and
    changes them.  Module [Sample] has one small instance of each interface,
    on which the definitions are run.

    [console.log] calls have no counterpart here. *)

From Stdlib Require Import ZArith Ascii String List Bool Lia.
From Stdlib.Strings Require Import Byte.
From stdpp Require Import base option list strings gmap.

Open Scope string_scope.

(** ** JavaScript values *)

(** A [Uint8Array] / [Buffer] payload. *)
Abbreviation bytes := (list Byte.byte).

(** The outcome of a call that may throw, or of an awaited promise that may
    reject. *)
Inductive Error :=
| TypeAlreadyDefined (name : string)   (* Doc.get: other constructor *)
| BSONError (input : string)           (* new ObjectId(docName) *)
| MongoConnectError                    (* client.connect() rejected *)
| ApplyUpdateError.                    (* Y.applyUpdate threw *)

Inductive Result (A : Type) :=
| Ok (a : A)
| Throw (e : Error).
Arguments Ok {A} a.
Arguments Throw {A} e.

(** A JavaScript string is held here in UTF-8, one [ascii] for each byte.
    The empty string is the empty list of bytes, and equality, appending and
    the search for a substring come to the same in either encoding. *)
Definition utf8 (b : bytes) : string := string_of_list_byte b.

(** The code points that [String.prototype.trim] removes: the white space
    and the line terminators of ECMAScript, which are TAB, LF, VT, FF, CR,
    SP, U+00A0, U+1680, U+2000 to U+200A, U+2028, U+2029, U+202F, U+205F,
    U+3000 and U+FEFF. *)
Definition white_space : list string :=
  map utf8
    [ [x09]; [x0a]; [x0b]; [x0c]; [x0d]; [x20];
      [xc2; xa0];
      [xe1; x9a; x80];
      [xe2; x80; x80]; [xe2; x80; x81]; [xe2; x80; x82]; [xe2; x80; x83];
      [xe2; x80; x84]; [xe2; x80; x85]; [xe2; x80; x86]; [xe2; x80; x87];
      [xe2; x80; x88]; [xe2; x80; x89]; [xe2; x80; x8a];
      [xe2; x80; xa8]; [xe2; x80; xa9]; [xe2; x80; xaf];
      [xe2; x81; x9f];
      [xe3; x80; x80];
      [xef; xbb; xbf] ].

(** [s] without its prefix [p], if it starts with [p]. *)
Fixpoint strip_prefix (p s : string) : option string :=
  match p, s with
  | EmptyString, _ => Some s
  | String a p', String b s' =>
      if Ascii.eqb a b then strip_prefix p' s' else None
  | String _ _, EmptyString => None
  end.

(** [s] without the first of the [codes] that it starts with. *)
Fixpoint strip_one (codes : list string) (s : string) : option string :=
  match codes with
  | [] => None
  | p :: codes' =>
      match strip_prefix p s with
      | Some rest => Some rest
      | None => strip_one codes' s
      end
  end.

(** Stripping as long as there is something to strip; every step takes at
    least one byte, so the length of the string is fuel enough. *)
Fixpoint strip_all (fuel : nat) (codes : list string) (s : string) : string :=
  match fuel with
  | O => s
  | S fuel' =>
      match strip_one codes s with
      | Some rest => strip_all fuel' codes rest
      | None => s
      end
  end.

Definition trimStart (s : string) : string :=
  strip_all (String.length s) white_space s.

Definition reverse_string (s : string) : string :=
  string_of_list_ascii (rev (list_ascii_of_string s)).

(** At the end of the string the same code points are looked for from the
    last byte backwards. *)
Definition trimEnd (s : string) : string :=
  reverse_string
    (strip_all (String.length s) (map reverse_string white_space)
       (reverse_string s)).

Definition trim (s : string) : string := trimEnd (trimStart s).

(** [s && s.trim().length > 0] *)
Definition has_text (s : string) : bool :=
  (0 <? String.length (trim s))%nat.

(** An object that is neither a [Buffer] nor a [Binary] and has a property
    [length] that is not a function: a plain [Array], which is what the
    driver hands back for a BSON array, with its elements, or a document
    with a key [length], of which only the outcome of [length > 0] is
    kept. *)
Inductive ArrayLike :=
| JsArray (elements : list Z)
| JsObject (positive : bool).

(** [o.length > 0] *)
Definition length_positive (o : ArrayLike) : bool :=
  match o with
  | JsArray elements => (0 <? length elements)%nat
  | JsObject positive => positive
  end.

(** What [toString()] gives for an object without a [toString] of its own. *)
Definition object_Object : string := "[object Object]".

(** ** The view of a yjs document that the backend has *)

(** Constructors of shared types ([shared.constructor]). *)
Inductive Ctor :=
| AbstractType | YText | YXmlText | YXmlElement | YXmlFragment
| YXmlHook | YMap | YArray.

Global Instance Ctor_eq_dec : EqDecision Ctor.
Proof. solve_decision. Defined.

(** [shared instanceof Y.Text]: [YXmlText] extends [YText]. *)
Definition instanceof_YText (c : Ctor) : bool :=
  match c with YText | YXmlText => true | _ => false end.

Definition instanceof_YXmlText (c : Ctor) : bool :=
  match c with YXmlText => true | _ => false end.

(** [YXmlElement] extends [YXmlFragment]. *)
Definition instanceof_YXmlElement (c : Ctor) : bool :=
  match c with YXmlElement => true | _ => false end.

Definition instanceof_YXmlFragment (c : Ctor) : bool :=
  match c with YXmlElement | YXmlFragment => true | _ => false end.

(** The content of a struct.  Only [ContentString] is told apart by the
    backend; every other content class is kept with what [YText] needs of it:
    whether it counts towards the length, and for how much. *)
Inductive Content :=
| ContentString (str : string)
| ContentOther (countable : bool) (len : nat).

(** A struct of class [Item]. *)
Record Item := { content : Content; deleted : bool }.

Definition item_countable (it : Item) : bool :=
  match content it with
  | ContentString _ => true
  | ContentOther c _ => c
  end.

Definition item_length (it : Item) : nat :=
  match content it with
  | ContentString s => String.length s
  | ContentOther _ n => n
  end.

(** [Item] has no [toString] of its own. *)
Definition item_toString (it : Item) : string := object_Object.

(** A node below an XML container, as [toArray()] lists it. *)
Inductive Xml :=
| XmlTextNode (text : string)       (* a Y.XmlText, with its toString() *)
| XmlContainer (children : list Xml) (* a Y.XmlElement or Y.XmlFragment *)
| XmlOther.

(** A shared type: its constructor, the entries of [_map], the chain of
    structs that starts at [_start] (following [right]), [_item], and for the
    XML classes what [toString()] and [toArray()] give. *)
Record SharedType := {
  ctor : Ctor;
  _map : list (string * Item);
  _start : list Item;
  _item : option Item;
  xml_string : string;
  xml_children : list Xml
}.

Definition new_type (c : Ctor) : SharedType :=
  {| ctor := c; _map := []; _start := []; _item := None;
     xml_string := ""; xml_children := [] |}.

(** [type._length], kept by yjs as the sum of the lengths of the countable
    structs of the chain that are not deleted; [YText.length] returns it. *)
Definition type_length (t : SharedType) : nat :=
  list_sum (map (fun it => if item_countable it && negb (deleted it)
                           then item_length it else 0%nat) (_start t)).

(** [YText.prototype.toString]: the strings of the chain. *)
Definition text_toString (t : SharedType) : string :=
  fold_right (fun it acc =>
                match content it with
                | ContentString s =>
                    if negb (deleted it) then s +:+ acc else acc
                | _ => acc
                end) "" (_start t).

(** [shared.toString()].  [AbstractType], [YMap] and [YArray] inherit
    [Object.prototype.toString]. *)
Definition toString (t : SharedType) : string :=
  match ctor t with
  | YText => text_toString t
  | YXmlText | YXmlElement | YXmlFragment => xml_string t
  | AbstractType | YMap | YArray | YXmlHook => object_Object
  end.

(** [ydoc.share] is a JavaScript [Map]: keys are unique and iteration follows
    insertion order. *)
Abbreviation Share := (list (string * SharedType)).

Fixpoint share_get (name : string) (sh : Share) : option SharedType :=
  match sh with
  | [] => None
  | (k, t) :: rest => if String.eqb k name then Some t else share_get name rest
  end.

(** [share.set(name, t)]: an existing key keeps its place. *)
Fixpoint share_set (name : string) (t : SharedType) (sh : Share) : Share :=
  match sh with
  | [] => [(name, t)]
  | (k, t') :: rest =>
      if String.eqb k name then (k, t) :: rest
      else (k, t') :: share_set name t rest
  end.

Definition share_has (name : string) (sh : Share) : bool :=
  match share_get name sh with Some _ => true | None => false end.

(** A [Y.Doc]: the struct store and the registry of shared types. *)
Record YDoc (Store : Type) := { store : Store; share : Share }.
Arguments store {Store} _.
Arguments share {Store} _.
Arguments Build_YDoc {Store} _ _.

Definition with_share {Store} (d : YDoc Store) (sh : Share) : YDoc Store :=
  {| store := store d; share := sh |}.

(** [Doc.prototype.get(name, TypeConstructor)].  A missing name is registered
    with a new instance.  A name registered as a plain [AbstractType] is
    replaced by an instance of the requested class that takes over [_map],
    [_start] and [_length]; a name registered with any other class throws. *)
Definition doc_get {Store} (d : YDoc Store) (name : string)
  (TypeConstructor : Ctor)
  : Result SharedType * YDoc Store :=
  match share_get name (share d) with
  | None =>
      let t := new_type TypeConstructor in
      (Ok t, with_share d (share_set name t (share d)))
  | Some type =>
      if negb (bool_decide (TypeConstructor = AbstractType))
         && negb (bool_decide (ctor type = TypeConstructor))
      then
        if bool_decide (ctor type = AbstractType) then
          let t := {| ctor := TypeConstructor; _map := _map type;
                      _start := _start type; _item := None;
                      xml_string := ""; xml_children := [] |} in
          (Ok t, with_share d (share_set name t (share d)))
        else (Throw (TypeAlreadyDefined name), d)
      else (Ok type, d)
  end.

(** [ydoc.getText(name)] *)
Definition getText {Store} (d : YDoc Store) (name : string)
  : Result SharedType * YDoc Store :=
  doc_get d name YText.

(** [ydoc.get(name)]: the default constructor never throws. *)
Definition get {Store} (d : YDoc Store) (name : string)
  : SharedType * YDoc Store :=
  match share_get name (share d) with
  | None =>
      let t := new_type AbstractType in
      (t, with_share d (share_set name t (share d)))
  | Some type => (type, d)
  end.

(** ** The text extractor ([class TextExtractor]) *)

(** The entries of a [_map] are structs.  The tests [value instanceof Y.Text]
    and [value.constructor.name === 'AbstractType'] of the source fail on
    them, and so does [typeof item.content === 'string']; what is left is the
    branch for [Item].  The last attempt of that branch reads
    [item.toString()] and discards it when it is ["[object Object]"]. *)
Definition item_text (item : Item) : option string :=
  match content item with
  | ContentString str => if has_text str then Some str else None
  | ContentOther _ _ => None
  end.

Definition item_toString_text (item : Item) : option string :=
  let itemText := item_toString item in
  if has_text itemText && negb (String.eqb itemText object_Object)
  then Some itemText else None.

(** The loop over the children of the root container: the first child that
    yields text ends the extraction. *)
Fixpoint root_children_text (entries : list (string * Item)) : option string :=
  match entries with
  | [] => None
  | (_, value) :: rest =>
      match item_text value with
      | Some text => Some text
      | None =>
          match item_toString_text value with
          | Some text => Some text
          | None => root_children_text rest
          end
      end
  end.

(** The block guarded by [if (rootAbstract)].  [_item] and [_start] hold
    structs, never a [Y.Text], so the two [instanceof] tests after the loop
    find nothing. *)
Definition root_text (rootAbstract : SharedType) : option string :=
  if bool_decide (ctor rootAbstract = AbstractType) then
    root_children_text (_map rootAbstract)
  else
    let rootText := toString rootAbstract in
    if has_text rootText then Some rootText else None.

(** [collect] of the fallback: the text below an XML container. *)
Fixpoint collect (node : Xml) : string :=
  match node with
  | XmlTextNode text => text
  | XmlContainer children =>
      fold_left (fun acc child => acc +:+ collect child) children ""
  | XmlOther => ""
  end.

(** What the fallback adds for one child of an [AbstractType]. *)
Definition fallback_child_text (value : Item) : string :=
  match item_text value with Some text => text | None => "" end
  +:+ match item_toString_text value with Some text => text | None => "" end.

(** What the fallback adds for one entry of the registry. *)
Definition fallback_entry_text (shared : SharedType) : string :=
  if instanceof_YText (ctor shared) then toString shared
  else if instanceof_YXmlText (ctor shared) then toString shared
  else if instanceof_YXmlElement (ctor shared)
          || instanceof_YXmlFragment (ctor shared)
  then fold_left (fun acc child => acc +:+ collect child)
                 (xml_children shared) ""
  else if bool_decide (ctor shared = AbstractType) then
    match _map shared with
    | [] => ""
    | _ =>
        fold_left (fun acc kv => acc +:+ fallback_child_text (snd kv))
                  (_map shared) ""
        +:+ match _item shared with
            | Some it =>
                let itemText := item_toString it in
                if has_text itemText then itemText else ""
            | None => ""
            end
        +:+ match _start shared with
            | it :: _ =>
                let startText := item_toString it in
                if has_text startText then startText else ""
            | [] => ""
            end
    end
  else "".

(** The fallback loop over [ydoc.share]. *)
Definition fallback_text (sh : Share) : string :=
  fold_left (fun extractedText entry =>
               extractedText +:+ fallback_entry_text (snd entry)) sh "".

(** The body of the [try] block of [extractTextFromYDoc]. *)
Definition extract_try {Store} (ydoc : YDoc Store)
  : Result string * YDoc Store :=
  match getText ydoc "content" with
  | (Throw e, d) => (Throw e, d)
  | (Ok content, d1) =>
  if (0 <? type_length content)%nat then (Ok (toString content), d1) else
  match getText d1 "lexical" with
  | (Throw e, d) => (Throw e, d)
  | (Ok lexicalContent, d2) =>
  if (0 <? type_length lexicalContent)%nat
  then (Ok (toString lexicalContent), d2) else
  let '(rootAbstract, d3) := get d2 "root" in
  match root_text rootAbstract with
  | Some text => (Ok text, d3)
  | None =>
  match getText d3 "editor" with
  | (Throw e, d) => (Throw e, d)
  | (Ok editorContent, d4) =>
  if (0 <? type_length editorContent)%nat
  then (Ok (toString editorContent), d4)
  else (Ok (fallback_text (share d4)), d4)
  end end end end.

(** [extractTextFromYDoc]: the text, and the document as the call leaves it.
    An exception in the body is caught and the result is then [""]. *)
Definition extractTextFromYDoc {Store} (ydoc : YDoc Store)
  : string * YDoc Store :=
  match extract_try ydoc with
  | (Ok text, d) => (text, d)
  | (Throw _, d) => ("", d)
  end.

(** [logTextBeforeSave] only logs what it extracts. *)
Definition logTextBeforeSave {Store} (ydoc : YDoc Store) (docName : string)
  : YDoc Store :=
  snd (extractTextFromYDoc ydoc).

(** ** The CRDT engine, as the backend uses it *)

(** [writeStateAsUpdate] is the full-state encoding of a struct store
    ([Y.encodeStateAsUpdate] writes the structs and the delete set of
    [doc.store]); [applyUpdate] is [Y.applyUpdate], which may throw on bytes
    it cannot read and leaves the document as far as it got.
    [applyUpdate_object] is [Y.applyUpdate] handed an object that is not a
    [Uint8Array]: the persistence class passes on what it finds in a record,
    and what the decoder of yjs makes of such an object is up to yjs. *)
Class Yjs := {
  StructStore : Type;
  new_store : StructStore;
  writeStateAsUpdate : StructStore -> bytes;
  applyUpdate : YDoc StructStore -> bytes -> Result unit * YDoc StructStore;
  applyUpdate_object :
    YDoc StructStore -> ArrayLike -> Result unit * YDoc StructStore
}.

Abbreviation Doc := (YDoc StructStore).

(** [new Y.Doc()] *)
Definition new_Doc `{Yjs} : Doc := {| store := new_store; share := [] |}.

(** [Y.encodeStateAsUpdate(doc)] *)
Definition encodeStateAsUpdate `{Yjs} (doc : Doc) : bytes :=
  writeStateAsUpdate (store doc).

(** ** The MongoDB collection *)

(** [new ObjectId(docName)] of the bson package: the identifier, or nothing
    when the constructor throws. *)
Class Bson := { ObjectId : string -> option N }.

(** The shapes in which the [stateVector] field of a record can come back from
    the driver, told apart by the tests the persistence class applies.  The
    driver returns binary data as a [Binary] (or as a [Buffer], when it is
    told to), a BSON array as a plain [Array] and an embedded document as an
    object; it never returns a [Uint8Array]. *)
Inductive Field :=
| FBuffer (b : bytes)        (* a Node Buffer: Buffer.isBuffer *)
| FBinary (buffer : bytes)   (* the driver's Binary: length is a method *)
| FArrayLike (o : ArrayLike) (* an Array, or a document with a key length *)
| FLengthMethod              (* length is a function, constructor not Binary *)
| FObject                    (* an object without length *)
| FPrimitive (truthy : bool). (* string, number, boolean, null *)

(** [interface DocumentState]; [_id] is the key of the record.  A record whose
    [stateVector] was unset has [None]. *)
Record DocumentState := { stateVector : option Field; updatedAt : Z }.

Definition truthy (sv : Field) : bool :=
  match sv with FPrimitive b => b | _ => true end.

(** [typeof sv.length === 'function'] *)
Definition length_is_function (sv : Field) : bool :=
  match sv with FBinary _ | FLengthMethod => true | _ => false end.

(** [sv.constructor && sv.constructor.name === 'Binary'] *)
Definition is_Binary (sv : Field) : bool :=
  match sv with FBinary _ => true | _ => false end.

(** [Buffer.isBuffer(sv)] *)
Definition isBuffer (sv : Field) : bool :=
  match sv with FBuffer _ => true | _ => false end.

(** [typeof sv === 'object'], for a truthy [sv]. *)
Definition typeof_object (sv : Field) : bool :=
  match sv with FPrimitive _ => false | _ => true end.

(** [sv.buffer], truthy on a [Binary]. *)
Definition has_buffer (sv : Field) : bool :=
  match sv with FBinary _ => true | _ => false end.

(** ['length' in sv], for an object. *)
Definition has_length (sv : Field) : bool :=
  match sv with
  | FBuffer _ | FBinary _ | FArrayLike _ | FLengthMethod => true
  | FObject | FPrimitive _ => false
  end.

(** What the conversion chain of [getYDoc] and [storeUpdate] leaves in its
    local variable: [null], a byte array made by [new Uint8Array(...)], or
    the stored object itself, which is an array-like object or an object
    whose [length] is a function. *)
Inductive Converted :=
| IsNull
| IsArray (b : bytes)
| IsArrayLike (o : ArrayLike)
| IsObject.

(** The chain of tests on a truthy field: a [Buffer], then a [Binary] with
    its [buffer], then any object with a [length], which is taken as it is. *)
Definition convert (sv : Field) : Converted :=
  if isBuffer sv then
    match sv with FBuffer b => IsArray b | _ => IsNull end
  else if typeof_object sv && is_Binary sv && has_buffer sv then
    match sv with FBinary buffer => IsArray buffer | _ => IsNull end
  else if typeof_object sv && has_length sv then
    match sv with FArrayLike o => IsArrayLike o | _ => IsObject end
  else IsNull.

(** What is handed to [Y.applyUpdate]: bytes, or the stored object. *)
Inductive Stored :=
| StoredBytes (b : bytes)
| StoredObject (o : ArrayLike).

(** [v && v.length > 0]; a function for [length] compares as [NaN]. *)
Definition nonempty_array (c : Converted) : option Stored :=
  match c with
  | IsArray b => if (0 <? length b)%nat then Some (StoredBytes b) else None
  | IsArrayLike o => if length_positive o then Some (StoredObject o) else None
  | IsNull | IsObject => None
  end.

(** The calls that reach the persistence object, in order (a journal kept
    for the statements below; the source has no such field). *)
Inductive Call :=
| CallGetYDoc (docName : string)
| CallStoreUpdate (docName : string) (update : bytes)
| CallWriteState (docName : string)
| CallFixCorruptedDocument (docName : string)
| CallDestroy.

(** The state behind a [CustomMongoPersistence]: whether the server can be
    reached, the [isConnected] flag, and the collection. *)
Record Mongo := {
  reachable : bool;
  isConnected : bool;
  collection : gmap N DocumentState;
  journal : list Call
}.

Definition set_connected (b : bool) (m : Mongo) : Mongo :=
  {| reachable := reachable m; isConnected := b;
     collection := collection m; journal := journal m |}.

Definition set_collection (c : gmap N DocumentState) (m : Mongo) : Mongo :=
  {| reachable := reachable m; isConnected := isConnected m;
     collection := c; journal := journal m |}.

Definition record_call (c : Call) (m : Mongo) : Mongo :=
  {| reachable := reachable m; isConnected := isConnected m;
     collection := collection m; journal := (journal m ++ [c])%list |}.

(** [connect()]: [client.connect()] rejects when the server is out of reach. *)
Definition connect (m : Mongo) : Result unit * Mongo :=
  if isConnected m then (Ok tt, m)
  else if reachable m then (Ok tt, set_connected true m)
  else (Throw MongoConnectError, m).

(** [disconnect()] *)
Definition disconnect (m : Mongo) : Mongo :=
  if isConnected m then set_connected false m else m.

(** [collection.updateOne(filter, { $set: { stateVector: Buffer.from(b),
    updatedAt } }, { upsert: true })].  The buffer is stored as BSON binary
    data, which [findOne] hands back as a [Binary]. *)
Definition upsert_state (oid : N) (b : bytes) (now : Z) (m : Mongo) : Mongo :=
  set_collection
    (<[oid := {| stateVector := Some (FBinary b); updatedAt := now |}]>
       (collection m)) m.

(** [collection.updateOne(filter, { $unset: { stateVector }, $set:
    { updatedAt } })] *)
Definition unset_state (oid : N) (now : Z) (m : Mongo) : Mongo :=
  set_collection
    (alter (fun _ => {| stateVector := None; updatedAt := now |}) oid
       (collection m)) m.

(** ** Asynchronous methods *)

(** An [async] method of the persistence class, once awaited: a value or a
    rejection, and the persistence state it leaves. *)
Definition Async (A : Type) : Type := Mongo -> Result A * Mongo.

Definition resolve {A} (a : A) : Async A := fun m => (Ok a, m).

Definition reject {A} (e : Error) : Async A := fun m => (Throw e, m).

(** [const x = await p; k] *)
Definition await {A B} (p : Async A) (k : A -> Async B) : Async B := fun m =>
  match p m with
  | (Ok a, m1) => k a m1
  | (Throw e, m1) => (Throw e, m1)
  end.

(** [try { body } catch (error) { handler }] *)
Definition try_catch {A} (body : Async A) (handler : Error -> Async A)
  : Async A := fun m =>
  match body m with
  | (Ok a, m1) => (Ok a, m1)
  | (Throw e, m1) => handler e m1
  end.

Notation "'do' x <- p ; k" := (await p (fun x => k))
  (at level 10, x name, p at level 100, k at level 200,
   format "'[v' 'do'  x  <-  p ; '/' k ']'").

(** The entry of a method in the journal. *)
Definition called (c : Call) : Async unit := fun m => (Ok tt, record_call c m).

(** [await this.connect()] *)
Definition await_connect : Async unit := connect.

(** [await this.collection.findOne({ _id })] *)
Definition findOne (oid : N) : Async (option DocumentState) := fun m =>
  (Ok (collection m !! oid), m).

(** [await this.collection.updateOne(...)], in its two uses. *)
Definition updateOne_set (oid : N) (b : bytes) (now : Z) : Async unit :=
  fun m => (Ok tt, upsert_state oid b now m).

Definition updateOne_unset (oid : N) (now : Z) : Async unit :=
  fun m => (Ok tt, unset_state oid now m).

(** ** [class CustomMongoPersistence] *)

Module CustomMongoPersistence.
Section Methods.
Context `{Yjs} `{Bson}.

(** [new ObjectId(docName)] *)
Definition new_ObjectId (docName : string) : Async N :=
  match ObjectId docName with
  | Some oid => resolve oid
  | None => reject (BSONError docName)
  end.

(** [Y.applyUpdate(doc, b)], with the document it leaves. *)
Definition Y_applyUpdate (doc : Doc) (b : bytes) : Async Doc :=
  match applyUpdate doc b with
  | (Ok _, doc') => resolve doc'
  | (Throw e, _) => reject e
  end.

(** [Y.applyUpdate(doc, stateVector)] on what the conversion chain left. *)
Definition Y_applyUpdate_stored (doc : Doc) (v : Stored) : Async Doc :=
  match v with
  | StoredBytes b => Y_applyUpdate doc b
  | StoredObject o =>
      match applyUpdate_object doc o with
      | (Ok _, doc') => resolve doc'
      | (Throw e, _) => reject e
      end
  end.

(** [docState.stateVector && typeof docState.stateVector.length ===
    'function'] *)
Definition looks_corrupted (docState : DocumentState) : bool :=
  match stateVector docState with
  | Some sv => truthy sv && length_is_function sv
  | None => false
  end.

(** [docState.stateVector.constructor.name === 'Binary'] *)
Definition holds_Binary (docState : DocumentState) : bool :=
  match stateVector docState with
  | Some sv => is_Binary sv
  | None => false
  end.

(** The local variable that the conversion chain fills: [null] unless the
    field is truthy. *)
Definition converted_state (docState : DocumentState) : Converted :=
  match stateVector docState with
  | Some sv => if truthy sv then convert sv else IsNull
  | None => IsNull
  end.

(** [fixCorruptedDocument(docName)]; [now] is what [new Date()] reads. *)
Definition fixCorruptedDocument (docName : string) (now : Z) : Async unit :=
  do _ <- called (CallFixCorruptedDocument docName);
  do _ <- await_connect;
  try_catch
    (do oid <- new_ObjectId docName;
     do docState <- findOne oid;
     match docState with
     | Some docState =>
         if looks_corrupted docState then
           if holds_Binary docState then resolve tt
           else updateOne_unset oid now
         else resolve tt
     | None => resolve tt
     end)
    (fun error => resolve tt).

(** The part of [getYDoc] that follows the corruption check, for a record
    that was found. *)
Definition load_state (docState : DocumentState) : Async Doc :=
  let stateVector := converted_state docState in
  match nonempty_array stateVector with
  | Some v =>
      let doc := new_Doc in
      try_catch (Y_applyUpdate_stored doc v) (fun applyError => resolve new_Doc)
  | None => resolve new_Doc
  end.

(** [getYDoc(docName)] *)
Definition getYDoc (docName : string) (now : Z) : Async Doc :=
  do _ <- called (CallGetYDoc docName);
  do _ <- await_connect;
  try_catch
    (do oid <- new_ObjectId docName;
     do docState <- findOne oid;
     match docState with
     | Some docState =>
         if looks_corrupted docState && negb (holds_Binary docState) then
           do _ <- fixCorruptedDocument docName now;
           resolve new_Doc
         else load_state docState
     | None => resolve new_Doc
     end)
    (fun error => resolve new_Doc).

(** The first half of the [try] block of [storeUpdate]: the temporary
    document with the existing state applied to it. *)
Definition existing_state (existingState : option DocumentState)
  : Async Doc :=
  let tempDoc := new_Doc in
  match existingState with
  | Some existingState =>
      match nonempty_array (converted_state existingState) with
      | Some v => Y_applyUpdate_stored tempDoc v
      | None => resolve tempDoc
      end
  | None => resolve tempDoc
  end.

(** [storeUpdate(docName, update)] *)
Definition storeUpdate (docName : string) (update : bytes) (now : Z)
  : Async unit :=
  do _ <- called (CallStoreUpdate docName update);
  do _ <- await_connect;
  try_catch
    (do oid <- new_ObjectId docName;
     do existingState <- findOne oid;
     do tempDoc <- existing_state existingState;
     do tempDoc <- Y_applyUpdate tempDoc update;
     let newStateVector := encodeStateAsUpdate tempDoc in
     do oid <- new_ObjectId docName;
     updateOne_set oid newStateVector now)
    (fun error => resolve tt).

(** [writeState(docName, ydoc)] *)
Definition writeState (docName : string) (ydoc : Doc) (now : Z)
  : Async unit :=
  do _ <- called (CallWriteState docName);
  do _ <- await_connect;
  try_catch
    (let stateVector := encodeStateAsUpdate ydoc in
     if (0 <? length stateVector)%nat then
       do oid <- new_ObjectId docName;
       updateOne_set oid stateVector now
     else resolve tt)
    (fun error => resolve tt).

(** [destroy()] *)
Definition destroy : Async unit :=
  do _ <- called CallDestroy;
  fun m => (Ok tt, disconnect m).

End Methods.
End CustomMongoPersistence.

(** ** The hooks handed to [setPersistence], and the update listener *)

(** The [origin] of a transaction, as an update listener receives it: nothing,
    or the connection the update came from. *)
Abbreviation Origin := (option nat).

(** What [bindState] leaves behind for one document: whether the update
    listener is registered, the two flags of its closure, and the pending
    [setTimeout] with the earliest time at which its callback may run. *)
Record Binding := {
  listener_registered : bool;
  isInitialLoad : bool;
  hasAppliedPersistedState : bool;
  timeout_due : option Z
}.

(** The delay given to [setTimeout], in milliseconds. *)
Definition guard_delay : Z := 2000.

Module Hooks.
Section WithPersistence.
Context `{Yjs} `{Bson}.

Definition mdb_getYDoc := CustomMongoPersistence.getYDoc.
Definition mdb_storeUpdate := CustomMongoPersistence.storeUpdate.
Definition mdb_writeState := CustomMongoPersistence.writeState.

(** [bindState(docName, ydoc)], run at time [now]: the outcome, the binding,
    the shared document as the call leaves it, and the persistence state.
    The update that [Y.applyUpdate] fires from inside [bindState] meets the
    listener while [isInitialLoad] is still set, so nothing is stored for
    it. *)
Definition bindState (docName : string) (ydoc : Doc) (now : Z) (m : Mongo)
  : Result unit * Binding * Doc * Mongo :=
  match mdb_getYDoc docName now m with
  | (Throw e, m1) =>
      (Throw e,
       {| listener_registered := false; isInitialLoad := true;
          hasAppliedPersistedState := false; timeout_due := None |},
       ydoc, m1)
  | (Ok persistedYdoc, m1) =>
      let '(persistedText, persistedYdoc) :=
        extractTextFromYDoc persistedYdoc in
      let '(currentText, ydoc) := extractTextFromYDoc ydoc in
      (* ydoc.on('update', ...) with isInitialLoad = true *)
      if (0 <? String.length persistedText)%nat then
        match applyUpdate ydoc (encodeStateAsUpdate persistedYdoc) with
        | (Throw e, ydoc) =>
            (Throw e,
             {| listener_registered := true; isInitialLoad := true;
                hasAppliedPersistedState := false; timeout_due := None |},
             ydoc, m1)
        | (Ok _, ydoc) =>
            let '(afterText, ydoc) := extractTextFromYDoc ydoc in
            (Ok tt,
             {| listener_registered := true; isInitialLoad := true;
                hasAppliedPersistedState := true;
                timeout_due := Some (now + guard_delay)%Z |},
             ydoc, m1)
        end
      else
        let '(afterText, ydoc) := extractTextFromYDoc ydoc in
        (Ok tt,
         {| listener_registered := true; isInitialLoad := true;
            hasAppliedPersistedState := false;
            timeout_due := Some (now + guard_delay)%Z |},
         ydoc, m1)
  end.

(** The listener registered by [bindState], called with the current state of
    the shared document. *)
Definition on_update (docName : string) (b : Binding) (ydoc : Doc)
  (update : bytes) (origin : Origin) (now : Z) (m : Mongo) : Doc * Mongo :=
  if isInitialLoad b then (ydoc, m)
  else
    let ydoc := logTextBeforeSave ydoc docName in
    let '(_, m) := mdb_storeUpdate docName update now m in
    (ydoc, m).

(** The callback given to [setTimeout]. *)
Definition on_timeout (b : Binding) : Binding :=
  {| listener_registered := listener_registered b; isInitialLoad := false;
     hasAppliedPersistedState := hasAppliedPersistedState b;
     timeout_due := None |}.

(** [writeState(docName, ydoc)], the hook. *)
Definition writeState (docName : string) (ydoc : Doc) (now : Z) (m : Mongo)
  : Result unit * Doc * Mongo :=
  let '(text, ydoc) := extractTextFromYDoc ydoc in
  if (String.length text =? 0)%nat then (Ok tt, ydoc, m)
  else
    let '(r, m) := mdb_writeState docName ydoc now m in
    (r, ydoc, m).

End WithPersistence.
End Hooks.

(** ** What happens to a bound document over time *)

(** An update event fired on the shared document, or the callback of the
    pending timer being run by the event loop. *)
Inductive Event :=
| UpdateEvent (update : bytes) (origin : Origin)
| TimeoutEvent.

Section EventLoop.
Context `{Yjs} `{Bson}.

(** The state around one bound document. *)
Record World := {
  binding : Binding;
  shared_doc : Doc;
  mongo : Mongo
}.

(** One turn of the event loop at time [t].  A timer callback runs only once
    its delay has passed, and only once. *)
Definition step (docName : string) (w : World) (ev : Z * Event) : World :=
  let '(t, e) := ev in
  match e with
  | UpdateEvent update origin =>
      if listener_registered (binding w) then
        let '(d, m) :=
          Hooks.on_update docName (binding w) (shared_doc w) update origin t
            (mongo w) in
        {| binding := binding w; shared_doc := d; mongo := m |}
      else w
  | TimeoutEvent =>
      match timeout_due (binding w) with
      | Some due =>
          if (due <=? t)%Z then
            {| binding := Hooks.on_timeout (binding w);
               shared_doc := shared_doc w; mongo := mongo w |}
          else w
      | None => w
      end
  end.

Definition run (docName : string) (w : World) (evs : list (Z * Event))
  : World :=
  fold_left (step docName) evs w.

End EventLoop.

(** ** Shutdown *)

(** What the process does on its way down, in order. *)
Inductive ShutdownStep :=
| MdbDestroy                     (* await mdb.destroy() *)
| ServerClose                    (* server.close() *)
| FinalFlush (docName : string)  (* a last writeState of an open document *)
| ProcessExit (code : Z).        (* process.exit(code) *)

(** The server process: the persistence object, whether the HTTP server
    accepts connections, the documents that are open in memory, and what the
    process has done so far. *)
Record Process `{Yjs} := {
  mdb : Mongo;
  accepting : bool;
  open_docs : list (string * Doc);
  exit_code : option Z;
  timeline : list ShutdownStep
}.

Section Shutdown.
Context `{Yjs} `{Bson}.

(** The handler of SIGINT and of SIGTERM (the two have the same body), up
    to the call of [server.close]. *)
Definition on_signal (p : Process) : Process :=
  let '(_, m) := CustomMongoPersistence.destroy (mdb p) in
  {| mdb := m;
     accepting := false;
     open_docs := open_docs p;
     exit_code := exit_code p;
     timeline := (timeline p ++ [MdbDestroy; ServerClose])%list |}.

(** The callback given to [server.close]: [process.exit(0)]. *)
Definition on_server_closed (p : Process) : Process :=
  {| mdb := mdb p;
     accepting := accepting p;
     open_docs := open_docs p;
     exit_code := Some 0%Z;
     timeline := (timeline p ++ [ProcessExit 0])%list |}.

(** The whole way down. *)
Definition shutdown (p : Process) : Process :=
  on_server_closed (on_signal p).

(** The order of shutdown in the words of the specification: stop accepting
    new connections, flush the final state of every open document, then
    release the persistence connection. *)
Definition shutdown_as_specified (p : Process) : list ShutdownStep :=
  (timeline p ++ [ServerClose]
     ++ map (fun d => FinalFlush (fst d)) (open_docs p)
     ++ [MdbDestroy])%list.

End Shutdown.

(** ** Accepting a connection *)

(** Why a connection is refused at the handshake. *)
Inductive Refusal :=
| AuthenticationFailed
| InvalidDocumentId.

Section Connection.
Context `{Yjs} `{Bson}.

(** Modelled from the spec: [setupWSConnection] of [./websocket/utils.js] is
    imported by the server but is not among the sources.  The specification
    has the token validated before the sync handshake, has an identifier that
    does not convert to the primary-key type of the store refused before the
    store is reached, and has the first session of a document load it
    ([bindState]) into a new in-memory document. *)
Definition setupWSConnection (docName : string) (token_valid : bool)
  (now : Z) (m : Mongo) : (Refusal + Result unit * Binding * Doc) * Mongo :=
  if negb token_valid then (inl AuthenticationFailed, m)
  else
    match ObjectId docName with
    | None => (inl InvalidDocumentId, m)
    | Some _ =>
        let '(r, b, d, m) := Hooks.bindState docName new_Doc now m in
        (inr (r, b, d), m)
    end.

End Connection.

(** ** Sample instances, to run the definitions on concrete inputs *)

Module Sample.

(** A small engine.  An operation is one byte, and the struct store is the
    list of the operations received so far.  What an operation inserts is
    fixed by a table: a run of text under ['notes'] or under ['content'], or
    an entry of the map under ['data'].  As in yjs, a struct is integrated
    below the root type of its name, which is registered as a plain
    [AbstractType] when the name is new.

    As in yjs, an encoding is never empty.  The full-state encoding of a
    store without operations is the two bytes 00 00 (no structs, no
    deletions); that of a store with operations is the byte 01, the number
    of operations, the operations, and the byte 00 for the deletions.  An
    update is such an encoding, and applying it adds the operations that are
    not there yet.  Bytes that are not an encoding (among them no bytes at
    all) and operations with the byte [xff] make [applyUpdate] throw.  An
    array-like object is not read as the bytes it lists: for an [Array] the
    document is left with a struct that no client has made, and for any
    other object [applyUpdate] throws. *)
Definition struct_of (op : Byte.byte) : string * option string * Content :=
  match op with
  | x01 => ("notes", None, ContentString "hello")
  | x02 => ("content", None, ContentString "hi")
  | x03 => ("data", Some "k", ContentOther true 1)
  | _ => ("data", Some "other", ContentOther true 1)
  end.

Fixpoint set_entry (key : string) (item : Item) (entries : list (string * Item))
  : list (string * Item) :=
  match entries with
  | [] => [(key, item)]
  | (k, i) :: rest =>
      if String.eqb k key then (k, item) :: rest
      else (k, i) :: set_entry key item rest
  end.

Definition integrate (sh : Share) (op : Byte.byte) : Share :=
  let '(root, parentSub, c) := struct_of op in
  let item := {| content := c; deleted := false |} in
  let parent :=
    match share_get root sh with
    | Some type => type
    | None => new_type AbstractType
    end in
  share_set root
    {| ctor := ctor parent;
       _map := match parentSub with
               | Some key => set_entry key item (_map parent)
               | None => _map parent
               end;
       _start := match parentSub with
                 | Some _ => _start parent
                 | None => (_start parent ++ [item])%list
                 end;
       _item := _item parent;
       xml_string := xml_string parent;
       xml_children := xml_children parent |} sh.

Definition is_xff (b : Byte.byte) : bool := Byte.eqb b xff.

Definition apply_ops (d : YDoc bytes) (update : bytes) : YDoc bytes :=
  fold_left (fun acc op =>
               if existsb (Byte.eqb op) (store acc) then acc
               else {| store := (store acc ++ [op])%list;
                       share := integrate (share acc) op |})
            update d.

Definition count (ops : bytes) : Byte.byte :=
  match Byte.of_nat (length ops) with Some n => n | None => xff end.

Definition frame (ops : bytes) : bytes :=
  match ops with
  | [] => [x00; x00]
  | _ => x01 :: count ops :: (ops ++ [x00])%list
  end.

Definition unframe (u : bytes) : option bytes :=
  match u with
  | a :: n :: rest =>
      if Byte.eqb a x00 then
        match rest with
        | [] => if Byte.eqb n x00 then Some [] else None
        | _ => None
        end
      else if Byte.eqb a x01 then
        match rev rest with
        | z :: spo =>
            let ops := rev spo in
            if Byte.eqb z x00 && Byte.eqb n (count ops)
               && (0 <? length ops)%nat
            then Some ops else None
        | [] => None
        end
      else None
  | _ => None
  end.

Definition log_engine : Yjs :=
  {| StructStore := bytes;
     new_store := [];
     writeStateAsUpdate := frame;
     applyUpdate := fun d u =>
       match unframe u with
       | Some ops =>
           if existsb is_xff ops then (Throw ApplyUpdateError, d)
           else (Ok tt, apply_ops d ops)
       | None => (Throw ApplyUpdateError, d)
       end;
     applyUpdate_object := fun d o =>
       match o with
       | JsArray _ =>
           (Ok tt, {| store := (store d ++ [xee])%list; share := share d |})
       | JsObject _ => (Throw ApplyUpdateError, d)
       end |}.

(** Identifiers of 24 hexadecimal digits. *)
Definition hex_digit (a : ascii) : option N :=
  let n := N_of_ascii a in
  if ((48 <=? n) && (n <=? 57))%N then Some (n - 48)%N
  else if ((97 <=? n) && (n <=? 102))%N then Some (n - 87)%N
  else if ((65 <=? n) && (n <=? 70))%N then Some (n - 55)%N
  else None.

Fixpoint hex_value (s : string) (acc : N) : option N :=
  match s with
  | EmptyString => Some acc
  | String a s' =>
      match hex_digit a with
      | Some d => hex_value s' (16 * acc + d)%N
      | None => None
      end
  end.

Definition hex_bson : Bson :=
  {| ObjectId := fun s =>
       if (String.length s =? 24)%nat then hex_value s 0%N else None |}.

Definition doc_id : string := "64b7f3a2c9e1d4f5a6b7c8d9".

Definition doc_oid : N :=
  Eval vm_compute in
    match hex_value doc_id 0%N with Some n => n | None => 0%N end.

(** A store that is reachable, not yet connected and empty. *)
Definition fresh_mongo : Mongo :=
  {| reachable := true; isConnected := false; collection := ∅; journal := [] |}.

(** A store that holds one record for [doc_id], with the given field. *)
Definition mongo_with (sv : option Field) (at_ : Z) : Mongo :=
  {| reachable := true; isConnected := true;
     collection := {[ doc_oid := {| stateVector := sv; updatedAt := at_ |} ]};
     journal := [] |}.

(** A store that cannot be reached. *)
Definition unreachable_mongo : Mongo :=
  {| reachable := false; isConnected := false; collection := ∅; journal := [] |}.

(** A shared type whose chain is one run of text. *)
Definition text_type (c : Ctor) (s : string) : SharedType :=
  {| ctor := c; _map := [];
     _start := [ {| content := ContentString s; deleted := false |} ];
     _item := None; xml_string := ""; xml_children := [] |}.

(** A document with the text "hello" under ['notes'], as the replica of a
    client holds it after [doc.getText('notes')]. *)
Definition client_replica : YDoc bytes :=
  {| store := [x01]; share := [("notes", text_type YText "hello")] |}.

(** The same document as the server holds it after [Y.applyUpdate]: the
    name is registered as a plain [AbstractType]. *)
Definition server_replica : YDoc bytes :=
  {| store := [x01]; share := [("notes", text_type AbstractType "hello")] |}.

(** The server's replica after the text "hi" was inserted under
    ['content'] as well. *)
Definition two_texts : YDoc bytes :=
  {| store := [x01; x02];
     share := [("notes", text_type AbstractType "hello");
               ("content", text_type AbstractType "hi")] |}.

(** A document with the text "hello" under ['content']. *)
Definition content_doc : YDoc bytes :=
  {| store := [x01]; share := [("content", text_type YText "hello")] |}.

(** A document whose ['root'] is registered as a [Y.XmlText] that reads
    "hello". *)
Definition xml_root_doc : YDoc bytes :=
  {| store := [x01];
     share := [("root", {| ctor := YXmlText; _map := []; _start := [];
                           _item := None; xml_string := "hello";
                           xml_children := [] |})] |}.

(** A document whose ['root'] is registered as a [Y.XmlText] that reads one
    no-break space (U+00A0). *)
Definition blank_root_doc : YDoc bytes :=
  {| store := [x01];
     share := [("root", {| ctor := YXmlText; _map := []; _start := [];
                           _item := None; xml_string := utf8 [xc2; xa0];
                           xml_children := [] |})] |}.


(** A running server with one open document and a connected store that holds
    an older snapshot of it. *)
Definition running : @Process log_engine :=
  {| mdb := mongo_with (Some (FBinary (frame [x02]))) 3;
     accepting := true;
     open_docs := [(doc_id, server_replica : YDoc (@StructStore log_engine))];
     exit_code := None;
     timeline := [] |}.



End Sample.

(** ** Notions used in the statements *)

(** What the extractor finds under ['root'] in a registry. *)
Definition text_under_root (sh : Share) : option string :=
  match share_get "root" sh with
  | Some rootAbstract => root_text rootAbstract
  | None => None
  end.

(** [getText(name)] does not throw and the text it gives has length 0: the
    name is not registered, or it is registered with a [Y.Text] or a plain
    [AbstractType] whose length is 0. *)
Definition holds_no_text (name : string) (sh : Share) : bool :=
  match share_get name sh with
  | None => true
  | Some t =>
      (bool_decide (ctor t = YText) || bool_decide (ctor t = AbstractType))
      && negb (0 <? type_length t)%nat
  end.

(** The names that a call of the extractor asks the registry for, which
    [getText] and [get] register when they are new: ['content'] always,
    ['lexical'] when ['content'] holds no text, ['root'] when ['lexical']
    holds none either, and ['editor'] when nothing is found under ['root']
    in addition. *)
Definition asked_for (sh : Share) (name : string) : bool :=
  let c := holds_no_text "content" sh in
  let l := holds_no_text "lexical" sh in
  let r := match text_under_root sh with Some _ => false | None => true end in
  String.eqb "content" name
  || c && String.eqb "lexical" name
  || c && l && String.eqb "root" name
  || c && l && r && String.eqb "editor" name.

(** The payload of a field that holds binary data. *)
Definition binary_payload (sv : Field) : option bytes :=
  match sv with
  | FBuffer b | FBinary b => Some b
  | FArrayLike _ | FLengthMethod | FObject | FPrimitive _ => None
  end.

(** The persisted snapshot of a document: the bytes of its record when there
    is a record whose [stateVector] is binary data (a [Buffer] or a
    [Binary]) of positive length, and nothing otherwise (no record, no
    field, an empty field, a field of another shape). *)
Definition persisted_snapshot (found : option DocumentState) : option bytes :=
  match found with
  | Some docState =>
      match stateVector docState with
      | Some sv =>
          match binary_payload sv with
          | Some (x :: b) => Some (x :: b)
          | _ => None
          end
      | None => None
      end
  | None => None
  end.

(** The document that a snapshot decodes to: the snapshot applied to a new
    document, or nothing when [Y.applyUpdate] throws. *)
Definition decode_snapshot `{Yjs} (snapshot : option bytes) : option Doc :=
  match snapshot with
  | Some b =>
      match applyUpdate new_Doc b with
      | (Ok _, d) => Some d
      | (Throw _, _) => None
      end
  | None => Some new_Doc
  end.

(** The array-like object in the record of a document, when [length > 0]
    holds for it. *)
Definition stored_object (found : option DocumentState) : option ArrayLike :=
  match found with
  | Some docState =>
      match stateVector docState with
      | Some (FArrayLike o) => if length_positive o then Some o else None
      | _ => None
      end
  | None => None
  end.

(** The document that the record of a document stands for: the persisted
    snapshot applied to a new document; for a record with an array-like
    object in its field, what [Y.applyUpdate] makes of that object; a new
    document when there is neither.  Nothing when [Y.applyUpdate] throws. *)
Definition existing_document `{Yjs} (found : option DocumentState)
  : option Doc :=
  match stored_object found with
  | Some o =>
      match applyUpdate_object new_Doc o with
      | (Ok _, d) => Some d
      | (Throw _, _) => None
      end
  | None => decode_snapshot (persisted_snapshot found)
  end.

(** The document that [storeUpdate] encodes: the update applied to the
    document of the record.  Nothing when [Y.applyUpdate] throws. *)
Definition merged_document `{Yjs} (found : option DocumentState)
  (update : bytes) : option Doc :=
  match existing_document found with
  | Some scratch =>
      match applyUpdate scratch update with
      | (Ok _, merged) => Some merged
      | (Throw _, _) => None
      end
  | None => None
  end.

(** The store can be used: the connection is open or can be opened. *)
Definition available (m : Mongo) : Prop :=
  isConnected m = true \/ reachable m = true.



(** ** More of the backend *)

Section MorePersistence.
Context `{Yjs} `{Bson}.

(** [listAllDocuments()], which the server calls once at start-up: it
    connects, reads the whole collection and logs it; an error of the read is
    caught. *)
Definition listAllDocuments : Async unit :=
  do _ <- await_connect;
  try_catch (do documents <- (fun m => (Ok (collection m), m));
             resolve tt)
            (fun error => resolve tt).

End MorePersistence.

(** ** The client: [createWebsocketProvider] *)

(** [s.includes(sub)] *)
Fixpoint includes (s sub : string) : bool :=
  String.prefix sub s
  || match s with
     | EmptyString => false
     | String _ rest => includes rest sub
     end.

(** The variables that the handlers of one provider share, the two flags
    that [createWebsocketProvider] keeps on [window], and what the handlers
    have done: the messages given to [toast.error], and how often the close
    handler has set [provider.shouldConnect = false] and called
    [provider.disconnect()].  [isInitialSync] is left out: it is read only to
    decide what is logged. *)
Record ProviderState := {
  hasShownAuthError : bool;
  consecutiveAuthFailures : nat;
  Y_CONNECTED : bool;
  Y_SYNCED : bool;
  toasts : list string;
  reconnection_stops : nat
}.

(** The state that [createWebsocketProvider] sets up. *)
Definition provider_created : ProviderState :=
  {| hasShownAuthError := false; consecutiveAuthFailures := 0;
     Y_CONNECTED := false; Y_SYNCED := false;
     toasts := []; reconnection_stops := 0 |}.

(** [provider.on('status', ...)]: the first of the two handlers; the second
    only installs the logging wrapper of [ws.send]. *)
Definition on_status (status : string) (st : ProviderState) : ProviderState :=
  let connected := String.eqb status "connected" in
  {| hasShownAuthError := if connected then false else hasShownAuthError st;
     consecutiveAuthFailures :=
       if connected then 0%nat else consecutiveAuthFailures st;
     Y_CONNECTED := connected;
     Y_SYNCED := Y_SYNCED st;
     toasts := toasts st;
     reconnection_stops := reconnection_stops st |}.

(** [provider.on('sync', ...)]: [window.__Y_SYNCED__ = !!isSynced]. *)
Definition on_sync (isSynced : bool) (st : ProviderState) : ProviderState :=
  {| hasShownAuthError := hasShownAuthError st;
     consecutiveAuthFailures := consecutiveAuthFailures st;
     Y_CONNECTED := Y_CONNECTED st;
     Y_SYNCED := isSynced;
     toasts := toasts st;
     reconnection_stops := reconnection_stops st |}.

(** The message that the close handler hands to [toast.error]. *)
Definition close_message (reason : string) : string :=
  if includes reason "Authentication failed" || includes reason "missing token"
  then "Authentication failed: Please set a valid auth token in localStorage"
  else if includes reason "Invalid document id"
  then "Invalid document ID: Must be a valid ObjectId"
  else "Connection failed: "
       +:+ (if String.eqb reason "" then "Authentication error" else reason).

(** The handler of the ['close'] event of the socket.  It is attached with
    [provider.ws?.addEventListener?.], that is, only to a socket that the
    provider has when it is created. *)
Definition on_close (code : Z) (reason : string) (st : ProviderState)
  : ProviderState :=
  if (code =? 1008)%Z && negb (hasShownAuthError st) then
    let failures := S (consecutiveAuthFailures st) in
    {| hasShownAuthError := true;
       consecutiveAuthFailures := failures;
       Y_CONNECTED := Y_CONNECTED st;
       Y_SYNCED := Y_SYNCED st;
       toasts := (toasts st ++ [close_message reason])%list;
       reconnection_stops :=
         if (3 <=? failures)%nat then S (reconnection_stops st)
         else reconnection_stops st |}
  else st.

(** What reaches the handlers of a provider. *)
Inductive ProviderEvent :=
| StatusEvent (status : string)
| SyncEvent (isSynced : bool)
| CloseEvent (code : Z) (reason : string).

Definition provider_step (st : ProviderState) (ev : ProviderEvent)
  : ProviderState :=
  match ev with
  | StatusEvent status => on_status status st
  | SyncEvent isSynced => on_sync isSynced st
  | CloseEvent code reason => on_close code reason st
  end.

Definition provider_run (st : ProviderState) (evs : list ProviderEvent)
  : ProviderState :=
  fold_left provider_step evs st.

(** ** The client: [EditingGatePlugin] *)

(** The [lastEditable] ref of the plugin, the [cancelled] flag of its
    effect, and the arguments of its calls of [editor.setEditable], in
    order. *)
Record Gate := {
  lastEditable : option bool;
  cancelled : bool;
  setEditable_calls : list bool
}.

Definition gate_mounted : Gate :=
  {| lastEditable := None; cancelled := false; setEditable_calls := [] |}.

(** [tick], with the value of [window.__Y_SYNCED__] at that moment:
    [undefined] before any provider was created, a boolean afterwards. *)
Definition tick (Y_SYNCED_now : option bool) (g : Gate) : Gate :=
  if cancelled g then g
  else
    let ready := bool_decide (Y_SYNCED_now = Some true) in
    if bool_decide (lastEditable g = Some ready) then g
    else {| lastEditable := Some ready; cancelled := cancelled g;
            setEditable_calls := (setEditable_calls g ++ [ready])%list |}.

(** The clean-up of the effect. *)
Definition gate_unmounted (g : Gate) : Gate :=
  {| lastEditable := lastEditable g; cancelled := true;
     setEditable_calls := setEditable_calls g |}.

(** A provider and the gate side by side: the events of the provider, and
    the ticks of the gate, which read the flag that the provider keeps. *)
Inductive ClientEvent :=
| FromProvider (ev : ProviderEvent)
| Tick.

Definition client_step (c : ProviderState * Gate) (ev : ClientEvent)
  : ProviderState * Gate :=
  match ev with
  | FromProvider e => (provider_step (fst c) e, snd c)
  | Tick => (fst c, tick (Some (Y_SYNCED (fst c))) (snd c))
  end.

Definition client_run (c : ProviderState * Gate) (evs : list ClientEvent)
  : ProviderState * Gate :=
  fold_left client_step evs c.

(** ** The client: the providers kept on [window] *)

(** What [createWebsocketProvider] keeps on [window]: the provider of each
    document under the key [__provider_<id>] (a provider is told from
    another by the order of its construction), the two flags, and the
    providers on which [disconnect] was called. *)
Record Window := {
  registered : gmap string nat;
  Y_CONNECTED_flag : option bool;
  Y_SYNCED_flag : option bool;
  constructed : nat;
  disconnected : list nat
}.

Definition existingProviderKey (id : string) : string := "__provider_" +:+ id.

(** [createWebsocketProvider(id, doc)]: the provider that is returned and
    what is left on [window].  [ws_open] tells of each provider whether it
    has a socket whose [readyState] is [OPEN] at the time of the call. *)
Definition createWebsocketProvider (ws_open : nat -> bool) (id : string)
  (w : Window) : nat * Window :=
  let create (w : Window) :=
    let provider := constructed w in
    (provider,
     {| registered := <[existingProviderKey id := provider]> (registered w);
        Y_CONNECTED_flag := Some false;
        Y_SYNCED_flag := Some false;
        constructed := S (constructed w);
        disconnected := disconnected w |}) in
  match registered w !! existingProviderKey id with
  | Some existingProvider =>
      if ws_open existingProvider then (existingProvider, w)
      else
        create {| registered := registered w;
                  Y_CONNECTED_flag := Y_CONNECTED_flag w;
                  Y_SYNCED_flag := Y_SYNCED_flag w;
                  constructed := constructed w;
                  disconnected := (disconnected w ++ [existingProvider])%list |}
  | None => create w
  end.

(** [provider.destroy()], as [createWebsocketProvider] overrides it on the
    provider it made for [id]: the key of the document is deleted. *)
Definition provider_destroy (id : string) (w : Window) : Window :=
  {| registered := delete (existingProviderKey id) (registered w);
     Y_CONNECTED_flag := Y_CONNECTED_flag w;
     Y_SYNCED_flag := Y_SYNCED_flag w;
     constructed := constructed w;
     disconnected := disconnected w |}.

(** Every provider on [window] has been constructed. *)
Definition window_ok (w : Window) : Prop :=
  forall key provider,
    registered w !! key = Some provider -> (provider < constructed w)%nat.

(** ** More notions used in the statements *)

(** A shared type is as it was, but for its class, which may have gone from
    the plain [AbstractType] to [YText]: the entries of [_map] and the chain
    of structs are the same. *)
Definition promoted_from (t t' : SharedType) : Prop :=
  _map t' = _map t /\ _start t' = _start t /\
  (ctor t' = ctor t \/ (ctor t = AbstractType /\ ctor t' = YText)).

(** Every type of the registry [sh] is in [sh'], as it was or promoted. *)
Definition registry_step (sh sh' : Share) : Prop :=
  forall n t, share_get n sh = Some t ->
    exists t', share_get n sh' = Some t' /\ promoted_from t t'.

(** A record is as it was, or has lost a field that had a function for
    [length]. *)
Definition kept_or_stripped (st st' : DocumentState) : Prop :=
  st' = st \/ (stateVector st = Some FLengthMethod /\ stateVector st' = None).

(** The collection after [getYDoc] has looked at the record of [oid]: a
    field with a function for [length] that is not a [Binary] is removed. *)
Definition healed (oid : N) (now : Z) (c : gmap N DocumentState)
  : gmap N DocumentState :=
  match c !! oid with
  | Some docState =>
      match stateVector docState with
      | Some FLengthMethod =>
          <[oid := {| stateVector := None; updatedAt := now |}]> c
      | _ => c
      end
  | None => c
  end.

(** The document that [getYDoc] hands out for a record, if there is one. *)
Definition loaded `{Yjs} (found : option DocumentState) : Doc :=
  default new_Doc (existing_document found).

Section Sequences.
Context `{Yjs} `{Bson}.

(** The update listener called for one update after the other, each with
    the time of its call. *)
Definition storeUpdates (docName : string) (updates : list (bytes * Z))
  (m : Mongo) : Mongo :=
  fold_left (fun m u =>
               snd (CustomMongoPersistence.storeUpdate docName (fst u) (snd u) m))
            updates m.

End Sequences.

(** How often the provider has reported the status ['connected']. *)
Definition connections (evs : list ProviderEvent) : nat :=
  length (List.filter
            (fun ev => match ev with
                       | StatusEvent status => String.eqb status "connected"
                       | _ => false
                       end) evs).

(** The gate ticking with one reading of [window.__Y_SYNCED__] after the
    other. *)
Definition gate_run (g : Gate) (readings : list (option bool)) : Gate :=
  fold_left (fun g reading => tick reading g) readings g.

(** No two calls in a row have the same argument. *)
Definition changes_only (calls : list bool) : Prop :=
  forall i x y, calls !! i = Some x -> calls !! (S i) = Some y -> x <> y.

(** ** More sample inputs *)

Module Inputs.

(** A store that was connected and then released, still reachable. *)
Definition released_mongo : Mongo :=
  {| reachable := true; isConnected := false;
     collection := {[ Sample.doc_oid :=
                        {| stateVector := Some (FBinary (Sample.frame [x02]));
                           updatedAt := 3 |} ]};
     journal := [] |}.

(** A document whose ['content'] is registered as a [Y.Map], with text
    under another name. *)
Definition clashing_doc : YDoc bytes :=
  {| store := [x01];
     share := [("content", new_type YMap);
               ("notes", Sample.text_type YText "hello")] |}.

(** A document whose ['content'] holds one embedded object and no text. *)
Definition embed_doc : YDoc bytes :=
  {| store := [x04];
     share := [("content",
                {| ctor := AbstractType; _map := [];
                   _start := [ {| content := ContentOther true 1;
                                  deleted := false |} ];
                   _item := None; xml_string := ""; xml_children := [] |})] |}.

(** The world that a [bindState] leaves when the store is out of reach. *)
Definition stalled_world : @World Sample.log_engine :=
  {| binding := {| listener_registered := false; isInitialLoad := true;
                   hasAppliedPersistedState := false; timeout_due := None |};
     shared_doc :=
       (Sample.server_replica : YDoc (@StructStore Sample.log_engine));
     mongo := record_call (CallGetYDoc Sample.doc_id)
                Sample.unreachable_mongo |}.

(** A bound document after its guard window, next to the record of another
    document. *)
Definition active_world : @World Sample.log_engine :=
  {| binding := {| listener_registered := true; isInitialLoad := false;
                   hasAppliedPersistedState := false; timeout_due := None |};
     shared_doc :=
       (Sample.server_replica : YDoc (@StructStore Sample.log_engine));
     mongo := Sample.mongo_with (Some (FBinary (Sample.frame [x02]))) 3 |}.

(** The identifier of another document. *)
Definition other_id : string := "64b7f3a2c9e1d4f5a6b7c8da".

(** A window with one provider, registered for the document ["doc"]. *)
Definition one_provider : Window :=
  {| registered := {[ existingProviderKey "doc" := 0%nat ]};
     Y_CONNECTED_flag := Some true; Y_SYNCED_flag := Some true;
     constructed := 1; disconnected := [] |}.

(** The gate of an editor that is editable. *)
Definition open_gate : Gate :=
  {| lastEditable := Some true; cancelled := false;
     setEditable_calls := [false; true] |}.

End Inputs.

(** Unfolding of the combinators of [Async]. *)
Ltac unfold_async :=
  unfold CustomMongoPersistence.new_ObjectId,
    CustomMongoPersistence.Y_applyUpdate;
  unfold await, try_catch, called, await_connect, findOne,
    updateOne_set, updateOne_unset;
  unfold resolve, reject; cbv beta iota.

(** Closing an equation between boolean combinations of [share_has] and of
    comparisons of names. *)
Ltac close_names :=
  repeat match goal with
         | |- context [String.eqb ?a ?b] => destruct (String.eqb a b)
         end;
  repeat match goal with
         | |- context [share_has ?n ?sh] => destruct (share_has n sh)
         end;
  done.

Ltac close_name :=
  simpl;
  repeat match goal with
         | |- context [share_has ?n ?sh] => destruct (share_has n sh)
         end;
  done.

(** * Properties *)

(** ** The registry under [Doc.get] *)

Lemma share_get_set_eq name t sh : share_get name (share_set name t sh) = Some t.
Proof.
  induction sh as [|[k t'] rest IH]; simpl.
  - by rewrite String.eqb_refl.
  - destruct (String.eqb k name) eqn:E; simpl; by rewrite E.
Qed.

Lemma share_get_set_ne name name' t sh :
  name <> name' -> share_get name' (share_set name t sh) = share_get name' sh.
Proof.
  intros Hne. induction sh as [|[k t'] rest IH]; simpl.
  - destruct (String.eqb name name') eqn:E; [|done].
    apply String.eqb_eq in E. contradiction.
  - destruct (String.eqb k name) eqn:E; simpl.
    + apply String.eqb_eq in E. subst k.
      destruct (String.eqb name name') eqn:E'; [|done].
      apply String.eqb_eq in E'. contradiction.
    + by rewrite IH.
Qed.

Lemma share_has_set name name' t sh :
  share_has name' sh = true -> share_has name' (share_set name t sh) = true.
Proof.
  unfold share_has. intros Hh.
  destruct (String.eqb name name') eqn:E.
  - apply String.eqb_eq in E. subst. by rewrite share_get_set_eq.
  - apply String.eqb_neq in E. by rewrite share_get_set_ne.
Qed.

Section Registry.
Context {Store : Type}.
Implicit Types (d : YDoc Store).

(** [Doc.get] never touches the struct store. *)
Lemma doc_get_store d name c : store (snd (doc_get d name c)) = store d.
Proof.
  unfold doc_get. destruct (share_get name (share d)); [|done].
  repeat case_match; done.
Qed.

Lemma get_store d name : store (snd (get d name)) = store d.
Proof. unfold get. by destruct (share_get name (share d)). Qed.

(** Names stay registered. *)
Lemma doc_get_keeps d name c n :
  share_has n (share d) = true ->
  share_has n (share (snd (doc_get d name c))) = true.
Proof.
  intros Hn. unfold doc_get. destruct (share_get name (share d)).
  - repeat case_match; simpl; auto using share_has_set.
  - simpl. by apply share_has_set.
Qed.

Lemma get_keeps d name n :
  share_has n (share d) = true -> share_has n (share (snd (get d name))) = true.
Proof.
  intros Hn. unfold get. destruct (share_get name (share d)); [done|].
  simpl. by apply share_has_set.
Qed.

(** A name other than the requested one is left as it is. *)
Lemma doc_get_other d name c n :
  name <> n ->
  share_get n (share (snd (doc_get d name c))) = share_get n (share d).
Proof.
  intros Hne. unfold doc_get. destruct (share_get name (share d)).
  - repeat case_match; simpl; auto using share_get_set_ne.
  - simpl. by apply share_get_set_ne.
Qed.

Lemma get_other d name n :
  name <> n -> share_get n (share (snd (get d name))) = share_get n (share d).
Proof.
  intros Hne. unfold get. destruct (share_get name (share d)); [done|].
  simpl. by apply share_get_set_ne.
Qed.

(** A missing name is registered with a new, empty instance. *)
Lemma getText_absent d name :
  share_get name (share d) = None ->
  getText d name
  = (Ok (new_type YText), with_share d (share_set name (new_type YText) (share d))).
Proof. intros Hn. unfold getText, doc_get. by rewrite Hn. Qed.

Lemma getText_throw_same d name e d' :
  getText d name = (Throw e, d') -> d' = d.
Proof.
  unfold getText, doc_get. destruct (share_get name (share d)); [|done].
  repeat case_match; congruence.
Qed.

(** The extractor never touches the struct store. *)
Lemma extract_try_store d : store (snd (extract_try d)) = store d.
Proof.
  unfold extract_try, getText.
  pose proof (doc_get_store d "content" YText) as Hg1.
  destruct (doc_get d "content" YText) as [[content|e] d1]; simpl in Hg1;
    [|simpl; congruence].
  case_match; [simpl; congruence|].
  pose proof (doc_get_store d1 "lexical" YText) as Hg2.
  destruct (doc_get d1 "lexical" YText) as [[lexical|e] d2]; simpl in Hg2;
    [|simpl; congruence].
  case_match; [simpl; congruence|].
  pose proof (get_store d2 "root") as Hg3.
  destruct (get d2 "root") as [rootAbstract d3]; simpl in Hg3.
  case_match; [simpl; congruence|].
  pose proof (doc_get_store d3 "editor" YText) as Hg4.
  destruct (doc_get d3 "editor" YText) as [[editor|e] d4]; simpl in Hg4;
    [|simpl; congruence].
  case_match; simpl; congruence.
Qed.

Lemma extractTextFromYDoc_store d :
  store (snd (extractTextFromYDoc d)) = store d.
Proof.
  unfold extractTextFromYDoc. pose proof (extract_try_store d) as Hs.
  by destruct (extract_try d) as [[text|e] d'].
Qed.

(** The registry only grows under extraction. *)
Lemma extract_try_keeps d n :
  share_has n (share d) = true ->
  share_has n (share (snd (extract_try d))) = true.
Proof.
  intros Hn. unfold extract_try, getText.
  pose proof (doc_get_keeps d "content" YText n Hn) as Hg1.
  destruct (doc_get d "content" YText) as [[content|e] d1]; simpl in Hg1; [|done].
  case_match; [done|].
  pose proof (doc_get_keeps d1 "lexical" YText n Hg1) as Hg2.
  destruct (doc_get d1 "lexical" YText) as [[lexical|e] d2]; simpl in Hg2; [|done].
  case_match; [done|].
  pose proof (get_keeps d2 "root" n Hg2) as Hg3.
  destruct (get d2 "root") as [rootAbstract d3]; simpl in Hg3.
  case_match; [done|].
  pose proof (doc_get_keeps d3 "editor" YText n Hg3) as Hg4.
  destruct (doc_get d3 "editor" YText) as [[editor|e] d4]; simpl in Hg4; [|done].
  by case_match.
Qed.

Lemma extractTextFromYDoc_keeps d n :
  share_has n (share d) = true ->
  share_has n (share (snd (extractTextFromYDoc d))) = true.
Proof.
  intros Hn. unfold extractTextFromYDoc.
  pose proof (extract_try_keeps d n Hn) as Hk.
  by destruct (extract_try d) as [[text|e] d'].
Qed.

End Registry.

(** ** The extractor and the registry *)

Section ExtractorRegistry.
Context {Store : Type}.
Implicit Types (ydoc : YDoc Store).

(** The exceptions of the body end in the [catch], which returns [""]. *)
Lemma extractTextFromYDoc_catches ydoc :
  fst (extractTextFromYDoc ydoc)
  = match fst (extract_try ydoc) with Ok text => text | Throw _ => "" end.
Proof.
  unfold extractTextFromYDoc. by destruct (extract_try ydoc) as [[text|e] d].
Qed.

(** A document without ['content'] gets it registered, whatever else it
    holds. *)
Lemma extractTextFromYDoc_registers_content ydoc :
  share_get "content" (share ydoc) = None ->
  share_get "content" (share (snd (extractTextFromYDoc ydoc)))
  = Some (new_type YText).
Proof.
  intros Hc. unfold extractTextFromYDoc, extract_try.
  rewrite (getText_absent _ _ Hc).
  change (0 <? type_length (new_type YText))%nat with false. cbv iota.
  set (d1 := with_share ydoc _).
  assert (Hc1 : share_get "content" (share d1) = Some (new_type YText))
    by apply share_get_set_eq.
  clearbody d1. unfold getText.
  pose proof (doc_get_other d1 "lexical" YText "content" ltac:(done)) as Hl.
  destruct (doc_get d1 "lexical" YText) as [[lexical|e] d2]; simpl in Hl;
    [|simpl; congruence].
  destruct (0 <? type_length lexical)%nat; [simpl; congruence|].
  pose proof (get_other d2 "root" "content" ltac:(done)) as Hr.
  destruct (get d2 "root") as [rootAbstract d3]; simpl in Hr.
  destruct (root_text rootAbstract); [simpl; congruence|].
  pose proof (doc_get_other d3 "editor" YText "content" ltac:(done)) as He.
  destruct (doc_get d3 "editor" YText) as [[editor|e] d4]; simpl in He;
    [|simpl; congruence].
  destruct (0 <? type_length editor)%nat; simpl; congruence.
Qed.

End ExtractorRegistry.

(** The extraction on a registry that has none of the three names that
    [getText] asks for. *)
Lemma extract_on_unregistered_names {Store} (ydoc : YDoc Store) :
  share_get "content" (share ydoc) = None ->
  share_get "lexical" (share ydoc) = None ->
  share_get "editor" (share ydoc) = None ->
  let text := fst (extractTextFromYDoc ydoc) in
  let after := share (snd (extractTextFromYDoc ydoc)) in
  fst (extract_try ydoc) = Ok text /\
  share_get "content" after = Some (new_type YText) /\
  share_get "lexical" after = Some (new_type YText) /\
  share_has "root" after = true /\
  match text_under_root (share ydoc) with
  | Some found => text = found /\ share_get "editor" after = None
  | None =>
      share_get "editor" after = Some (new_type YText) /\
      text = fallback_text after
  end.
Proof.
  intros Hc Hl He text after. subst text after.
  unfold extractTextFromYDoc, extract_try, text_under_root.
  rewrite (getText_absent _ _ Hc).
  change (0 <? type_length (new_type YText))%nat with false. cbv iota.
  set (sh1 := share_set "content" _ _).
  assert (Hl1 : share_get "lexical" sh1 = None)
    by (unfold sh1; by rewrite share_get_set_ne).
  rewrite (getText_absent (with_share ydoc sh1) "lexical" Hl1).
  change (0 <? type_length (new_type YText))%nat with false. cbv iota.
  change (share (with_share ydoc sh1)) with sh1.
  set (sh2 := share_set "lexical" _ sh1).
  assert (Hr2 : share_get "root" sh2 = share_get "root" (share ydoc))
    by (unfold sh2, sh1; by rewrite !share_get_set_ne).
  assert (Hc2 : share_get "content" sh2 = Some (new_type YText))
    by (unfold sh2, sh1; rewrite share_get_set_ne by done;
        apply share_get_set_eq).
  assert (Hl2 : share_get "lexical" sh2 = Some (new_type YText))
    by apply share_get_set_eq.
  assert (He2 : share_get "editor" sh2 = None)
    by (unfold sh2, sh1; by rewrite !share_get_set_ne).
  clearbody sh2. clear Hl1. clearbody sh1.
  unfold get. change (share (with_share (with_share ydoc sh1) sh2)) with sh2.
  rewrite Hr2.
  destruct (share_get "root" (share ydoc)) as [rootAbstract|] eqn:Hroot.
  - destruct (root_text rootAbstract) as [found|] eqn:Hfound.
    + cbn [fst snd share with_share]. repeat split; try done.
      unfold share_has. by rewrite Hr2.
    + rewrite (getText_absent (with_share (with_share ydoc sh1) sh2)
                 "editor" He2).
      change (0 <? type_length (new_type YText))%nat with false.
      cbn [fst snd share with_share]. repeat split.
      * by rewrite share_get_set_ne.
      * by rewrite share_get_set_ne.
      * apply share_has_set. unfold share_has. by rewrite Hr2.
      * apply share_get_set_eq.
  - change (root_text (new_type AbstractType)) with (@None string).
    cbv iota. cbn [share with_share].
    set (sh3 := share_set "root" _ sh2).
    assert (He3 : share_get "editor" sh3 = None)
      by (unfold sh3; by rewrite share_get_set_ne).
    rewrite (getText_absent
               (with_share (with_share (with_share ydoc sh1) sh2) sh3)
               "editor" He3).
    change (0 <? type_length (new_type YText))%nat with false.
    cbn [fst snd share with_share]. repeat split.
    + unfold sh3. by rewrite !share_get_set_ne.
    + unfold sh3. by rewrite !share_get_set_ne.
    + apply share_has_set. unfold share_has, sh3. by rewrite share_get_set_eq.
    + apply share_get_set_eq.
Qed.

Section ExtractorSteps.
Context {Store : Type}.
Implicit Types (d : YDoc Store).

(** One call of [getText]: whether it finds text, and what it registers. *)
Lemma getText_step d name :
  match getText d name with
  | (Ok t, d') =>
      holds_no_text name (share d) = negb (0 <? type_length t)%nat /\
      (forall n, share_has n (share d')
                 = share_has n (share d) || String.eqb name n) /\
      (forall n, name <> n -> share_get n (share d') = share_get n (share d))
  | (Throw e, d') =>
      holds_no_text name (share d) = false /\ d' = d /\
      share_has name (share d) = true
  end.
Proof.
  unfold getText, doc_get, holds_no_text, share_has.
  destruct (share_get name (share d)) as [t|] eqn:Hname; simpl.
  - destruct (bool_decide (ctor t = YText)) eqn:Hy; simpl.
    + split; [done|]. split; [|done]. intros n.
      destruct (String.eqb_spec name n) as [<-|Hne];
        [by rewrite Hname|by rewrite orb_false_r].
    + destruct (bool_decide (ctor t = AbstractType)) eqn:Ha; simpl; [|done].
      split; [done|]. split.
      * intros n. destruct (String.eqb_spec name n) as [<-|Hne].
        -- by rewrite share_get_set_eq, Hname.
        -- rewrite share_get_set_ne by done. by rewrite orb_false_r.
      * intros n Hne. by apply share_get_set_ne.
  - split; [done|]. split.
    + intros n. destruct (String.eqb_spec name n) as [<-|Hne].
      * by rewrite share_get_set_eq, Hname.
      * rewrite share_get_set_ne by done. by rewrite orb_false_r.
    + intros n Hne. by apply share_get_set_ne.
Qed.

(** The call of [get] for ['root']. *)
Lemma get_root_step d :
  root_text (fst (get d "root")) = text_under_root (share d) /\
  (forall n, share_has n (share (snd (get d "root")))
             = share_has n (share d) || String.eqb "root" n) /\
  (forall n, "root" <> n ->
             share_get n (share (snd (get d "root"))) = share_get n (share d)).
Proof.
  unfold get, text_under_root, share_has.
  destruct (share_get "root" (share d)) as [t|] eqn:Hroot;
    cbn [fst snd share with_share].
  - split; [done|]. split; [|done]. intros n.
    destruct (String.eqb_spec "root" n) as [<-|Hne];
      [by rewrite Hroot|by rewrite orb_false_r].
  - split; [done|]. split.
    + intros n. destruct (String.eqb_spec "root" n) as [<-|Hne].
      * by rewrite share_get_set_eq, Hroot.
      * rewrite share_get_set_ne by done. by rewrite orb_false_r.
    + intros n Hne. by apply share_get_set_ne.
Qed.

Lemma holds_no_text_same name sh sh' :
  share_get name sh' = share_get name sh ->
  holds_no_text name sh' = holds_no_text name sh.
Proof. unfold holds_no_text. by intros ->. Qed.

Lemma text_under_root_same sh sh' :
  share_get "root" sh' = share_get "root" sh ->
  text_under_root sh' = text_under_root sh.
Proof. unfold text_under_root. by intros ->. Qed.

(** A name that is registered is registered after the call, and a name that
    is not is registered by the call exactly if the call asks for it. *)
Lemma extract_try_registered d n :
  share_has n (share (snd (extract_try d)))
  = share_has n (share d) || asked_for (share d) n.
Proof.
  unfold extract_try, asked_for.
  pose proof (getText_step d "content") as Hstep1.
  destruct (getText d "content") as [[content|e] d1].
  2:{ destruct Hstep1 as (-> & -> & Hthere). cbn [snd].
      destruct (String.eqb_spec "content" n) as [<-|Hne];
        [by rewrite Hthere|close_names]. }
  destruct Hstep1 as (-> & Hhas1 & Hget1).
  destruct (0 <? type_length content)%nat; cbn [snd negb].
  { rewrite Hhas1. close_names. }
  pose proof (getText_step d1 "lexical") as Hstep2.
  rewrite (holds_no_text_same "lexical" (share d) (share d1)) in Hstep2
    by (by apply Hget1).
  destruct (getText d1 "lexical") as [[lexical|e] d2].
  2:{ destruct Hstep2 as (-> & -> & Hthere). cbn [snd].
      rewrite Hhas1 in Hthere. rewrite Hhas1.
      destruct (String.eqb_spec "lexical" n) as [<-|Hne];
        [rewrite Hthere; close_name|close_names]. }
  destruct Hstep2 as (-> & Hhas2 & Hget2).
  destruct (0 <? type_length lexical)%nat; cbn [snd negb].
  { rewrite Hhas2, Hhas1. close_names. }
  destruct (get_root_step d2) as (Hroot & Hhas3 & Hget3).
  rewrite (text_under_root_same (share d1) (share d2)) in Hroot
    by (by apply Hget2).
  rewrite (text_under_root_same (share d) (share d1)) in Hroot
    by (by apply Hget1).
  destruct (get d2 "root") as [rootAbstract d3].
  cbn [fst snd] in Hroot, Hhas3, Hget3.
  rewrite <- Hroot.
  destruct (root_text rootAbstract) as [text|]; cbn [snd].
  { rewrite Hhas3, Hhas2, Hhas1. close_names. }
  pose proof (getText_step d3 "editor") as Hstep4.
  destruct (getText d3 "editor") as [[editor|e] d4].
  2:{ destruct Hstep4 as (_ & -> & Hthere). cbn [snd].
      rewrite Hhas3, Hhas2, Hhas1 in Hthere.
      rewrite Hhas3, Hhas2, Hhas1.
      destruct (String.eqb_spec "editor" n) as [<-|Hne];
        [rewrite Hthere; close_name|close_names]. }
  destruct Hstep4 as (_ & Hhas4 & _).
  assert (Hall : share_has n (share d4)
                 = share_has n (share d) || String.eqb "content" n
                   || String.eqb "lexical" n || String.eqb "root" n
                   || String.eqb "editor" n)
    by (by rewrite Hhas4, Hhas3, Hhas2, Hhas1).
  destruct (0 <? type_length editor)%nat; cbn [snd];
    rewrite Hall; close_names.
Qed.

End ExtractorSteps.

(** C10, amended.  [extractTextFromYDoc] always returns a string: an
    exception of its body ends in the [catch], which returns the empty
    string.  It is not a pure read.  No name is ever unregistered, and the
    names that are registered after the call are those that were registered
    before it and those that the call asks for: ['content'] always,
    ['lexical'] when ['content'] holds no text, ['root'] when ['lexical']
    holds none either, and ['editor'] when, in addition, no text is found
    under ['root'].  So a registry without ['content'] gains it as a new
    shared text.  On a document whose registry has none of ['content'],
    ['lexical'] and ['editor'], the body does not throw and the call
    registers ['content'] and ['lexical'] as new shared texts and leaves
    ['root'] registered; ['editor'] is registered as well when no text is
    found under ['root'], and then the result is the fallback text, while
    text found under ['root'] is returned at once and ['editor'] stays
    unregistered. *)
Theorem extractTextFromYDoc_registers_types {Store} (ydoc : YDoc Store) :
  let text := fst (extractTextFromYDoc ydoc) in
  let after := share (snd (extractTextFromYDoc ydoc)) in
  text = match fst (extract_try ydoc) with Ok t => t | Throw _ => "" end /\
  (forall name, share_has name (share ydoc) = true ->
                share_has name after = true) /\
  (forall name, share_has name after
                = share_has name (share ydoc) || asked_for (share ydoc) name) /\
  (share_get "content" (share ydoc) = None ->
   share_get "content" after = Some (new_type YText)) /\
  (share_get "content" (share ydoc) = None ->
   share_get "lexical" (share ydoc) = None ->
   share_get "editor" (share ydoc) = None ->
   fst (extract_try ydoc) = Ok text /\
   share_get "lexical" after = Some (new_type YText) /\
   share_has "root" after = true /\
   match text_under_root (share ydoc) with
   | Some found => text = found /\ share_get "editor" after = None
   | None =>
       share_get "editor" after = Some (new_type YText) /\
       text = fallback_text after
   end).
Proof.
  intros text after. subst text after. repeat split.
  - apply extractTextFromYDoc_catches.
  - intros name. apply extractTextFromYDoc_keeps.
  - intros name. pose proof (extract_try_registered ydoc name) as Hreg.
    unfold extractTextFromYDoc.
    by destruct (extract_try ydoc) as [[text|e] d'].
  - apply extractTextFromYDoc_registers_content.
  - by destruct (extract_on_unregistered_names ydoc) as (? & _).
  - by destruct (extract_on_unregistered_names ydoc) as (_ & _ & ? & _).
  - by destruct (extract_on_unregistered_names ydoc) as (_ & _ & _ & ? & _).
  - by destruct (extract_on_unregistered_names ydoc) as (_ & _ & _ & _ & ?).
Qed.

Lemma extractTextFromYDoc_registers_types_witness :
  (share_get "content" (share Sample.server_replica) = None /\
   share_get "lexical" (share Sample.server_replica) = None /\
   share_get "editor" (share Sample.server_replica) = None) /\
  share_get "editor" (share (snd (extractTextFromYDoc Sample.server_replica)))
  = Some (new_type YText).
Proof.
  split; [repeat split; reflexivity|].
  pose proof (proj2 (proj2 (proj2 (proj2
                (extractTextFromYDoc_registers_types Sample.server_replica))))
                eq_refl eq_refl eq_refl) as (_ & _ & _ & Hroot).
  exact (proj1 Hroot).
Defined.

(** C10, as stated, fails.  A document whose registry has none of the three
    names but whose ['root'] reads "hello" leaves the extractor with "hello"
    and without ['editor'] in its registry; a document with text under
    ['content'] and neither ['lexical'] nor ['editor'] is returned with its
    registry untouched. *)
Lemma extractTextFromYDoc_registry_counterexample :
  (share_get "content" (share Sample.xml_root_doc) = None /\
   share_get "lexical" (share Sample.xml_root_doc) = None /\
   share_get "editor" (share Sample.xml_root_doc) = None /\
   fst (extractTextFromYDoc Sample.xml_root_doc) = "hello" /\
   share_get "editor" (share (snd (extractTextFromYDoc Sample.xml_root_doc)))
   = None) /\
  (share_get "lexical" (share Sample.content_doc) = None /\
   share_get "editor" (share Sample.content_doc) = None /\
   fst (extractTextFromYDoc Sample.content_doc) = "hello" /\
   snd (extractTextFromYDoc Sample.content_doc) = Sample.content_doc).
Proof. vm_compute. repeat split. Qed.

(** White space is no text: a ['root'] that reads one no-break space sends
    the extractor on to ['editor'], which it registers. *)
Example extractTextFromYDoc_blank_root :
  text_under_root (share Sample.blank_root_doc) = None /\
  share_get "editor" (share Sample.blank_root_doc) = None /\
  share_get "editor" (share (snd (extractTextFromYDoc Sample.blank_root_doc)))
  = Some (new_type YText).
Proof. vm_compute. repeat split. Qed.

(** ** The persistence class *)

Section PersistenceFacts.
Context `{Yjs} `{Bson}.
Import CustomMongoPersistence.

Lemma connect_available m :
  available m ->
  exists m1, connect m = (Ok tt, m1) /\ collection m1 = collection m /\
             journal m1 = journal m /\ isConnected m1 = true.
Proof.
  intros [Hc|Hr]; unfold connect.
  - rewrite Hc. by exists m.
  - destruct (isConnected m) eqn:Hc; [by exists m|].
    rewrite Hr. by eexists.
Qed.

Lemma connect_collection m : collection (snd (connect m)) = collection m.
Proof. unfold connect. by repeat case_match. Qed.


Lemma connect_reachable m : reachable (snd (connect m)) = reachable m.
Proof. unfold connect. by repeat case_match. Qed.

Lemma available_record_call c m : available m -> available (record_call c m).
Proof. by intros [?|?]; [left|right]. Qed.

(** The conversion chain yields the persisted snapshot, or the array-like
    object of the record. *)
Lemma nonempty_array_converted docState :
  nonempty_array (converted_state docState)
  = match stored_object (Some docState) with
    | Some o => Some (StoredObject o)
    | None => StoredBytes <$> persisted_snapshot (Some docState)
    end.
Proof.
  unfold converted_state, persisted_snapshot, stored_object.
  destruct (stateVector docState) as [sv|]; [|done].
  destruct sv as [b|b|o| | |t]; simpl; try done.
  - by destruct b.
  - by destruct b.
  - by destruct (length_positive o).
  - by destruct t.
Qed.

Lemma existing_state_decode found m :
  existing_state found m
  = (match stored_object found with
     | Some o =>
         match applyUpdate_object new_Doc o with
         | (Ok _, d) => Ok d
         | (Throw e, _) => Throw e
         end
     | None =>
         match persisted_snapshot found with
         | Some b =>
             match applyUpdate new_Doc b with
             | (Ok _, d) => Ok d
             | (Throw e, _) => Throw e
             end
         | None => Ok new_Doc
         end
     end, m).
Proof.
  unfold existing_state. destruct found as [docState|]; [|done].
  rewrite nonempty_array_converted.
  destruct (stored_object (Some docState)) as [o|].
  - unfold Y_applyUpdate_stored. unfold_async.
    by destruct (applyUpdate_object new_Doc o) as [[[]|e] d].
  - destruct (persisted_snapshot _) as [b|]; [|done].
    unfold fmap, option_fmap, option_map, Y_applyUpdate_stored. unfold_async.
    by destruct (applyUpdate new_Doc b) as [[[]|e] d].
Qed.

(** The first half of [storeUpdate] gives the document of the record, or
    throws when there is none. *)
Lemma existing_state_document found m :
  match existing_document found with
  | Some d => existing_state found m = (Ok d, m)
  | None => exists e, existing_state found m = (Throw e, m)
  end.
Proof.
  rewrite existing_state_decode. unfold existing_document, decode_snapshot.
  destruct (stored_object found) as [o|].
  - destruct (applyUpdate_object new_Doc o) as [[[]|e] d]; eauto.
  - destruct (persisted_snapshot found) as [b|]; [|done].
    destruct (applyUpdate new_Doc b) as [[[]|e] d]; eauto.
Qed.

Lemma load_state_decode docState m :
  load_state docState m = (Ok (loaded (Some docState)), m).
Proof.
  unfold load_state, loaded, existing_document, decode_snapshot.
  rewrite nonempty_array_converted.
  destruct (stored_object (Some docState)) as [o|].
  - unfold Y_applyUpdate_stored. unfold_async.
    by destruct (applyUpdate_object new_Doc o) as [[[]|e] d].
  - destruct (persisted_snapshot _) as [b|]; simpl; [|done].
    unfold Y_applyUpdate_stored. unfold_async.
    by destruct (applyUpdate new_Doc b) as [[[]|e] d].
Qed.

(** Unsetting the field of a record that is there. *)
Lemma unset_state_present oid now m docState :
  collection m !! oid = Some docState ->
  collection (unset_state oid now m)
  = <[oid := {| stateVector := None; updatedAt := now |}]> (collection m).
Proof.
  intros Hfound. unfold unset_state. simpl. apply map_eq. intros i.
  rewrite lookup_alter, lookup_insert.
  destruct (decide (oid = i)) as [->|Hne]; by rewrite ?Hfound.
Qed.


(** An identifier that does not convert leaves the collection alone. *)
Lemma invalid_id_untouched docName update ydoc now m :
  ObjectId docName = None ->
  collection (snd (getYDoc docName now m)) = collection m /\
  collection (snd (storeUpdate docName update now m)) = collection m /\
  collection (snd (writeState docName ydoc now m)) = collection m.
Proof.
  intros Hid. repeat split.
  - unfold getYDoc. unfold_async.
    pose proof (connect_collection (record_call (CallGetYDoc docName) m)) as Hc.
    destruct (connect _) as [[[]|e] m1]; simpl in Hc; [|done].
    by rewrite Hid.
  - unfold storeUpdate. unfold_async.
    pose proof (connect_collection
                  (record_call (CallStoreUpdate docName update) m)) as Hc.
    destruct (connect _) as [[[]|e] m1]; simpl in Hc; [|done].
    by rewrite Hid.
  - unfold writeState. unfold_async.
    pose proof (connect_collection (record_call (CallWriteState docName) m))
      as Hc.
    destruct (connect _) as [[[]|e] m1]; simpl in Hc; [|done].
    rewrite Hid.
    destruct (0 <? length (encodeStateAsUpdate ydoc))%nat; simpl; congruence.
Qed.

(** A record with a persisted snapshot has no array-like object. *)
Lemma persisted_snapshot_no_object found b :
  persisted_snapshot found = Some b -> stored_object found = None.
Proof.
  unfold persisted_snapshot, stored_object.
  destruct found as [docState|]; [|done].
  by destruct (stateVector docState) as [[b'|b'|o| | |t]|].
Qed.

(** What [storeUpdate] does, as long as the store can be reached. *)
Lemma storeUpdate_decided docName update now m :
  available m ->
  exists m',
    storeUpdate docName update now m = (Ok tt, m') /\
    isConnected m' = true /\ reachable m' = reachable m /\
    collection m'
    = match ObjectId docName with
      | Some oid =>
          match merged_document (collection m !! oid) update with
          | Some merged =>
              <[oid := {| stateVector :=
                            Some (FBinary (encodeStateAsUpdate merged));
                          updatedAt := now |}]> (collection m)
          | None => collection m
          end
      | None => collection m
      end.
Proof.
  intros Hav. unfold storeUpdate. unfold_async.
  pose proof (connect_reachable (record_call (CallStoreUpdate docName update) m))
    as Hreach.
  destruct (connect_available _
              (available_record_call (CallStoreUpdate docName update) m Hav))
    as (m1 & Hconnect & Hcoll & _ & Hconn).
  rewrite Hconnect in *. simpl in Hreach, Hcoll.
  destruct (ObjectId docName) as [oid|] eqn:Hid; [|by eexists].
  unfold resolve. cbv beta iota. rewrite Hcoll.
  pose proof (existing_state_document (collection m !! oid) m1) as Hexisting.
  unfold merged_document.
  destruct (existing_document (collection m !! oid)) as [scratch|].
  - rewrite Hexisting.
    destruct (applyUpdate scratch update) as [[[]|e] merged];
      [|by eexists].
    eexists. split; [done|]. repeat split; try done.
    simpl. by rewrite Hcoll.
  - destruct Hexisting as [e ->]. by eexists.
Qed.

(** An update that cannot be applied to the document of the record is
    caught and nothing is written. *)
Lemma storeUpdate_unreadable_update docName update now m oid scratch e failed :
  available m ->
  ObjectId docName = Some oid ->
  existing_document (collection m !! oid) = Some scratch ->
  applyUpdate scratch update = (Throw e, failed) ->
  exists m', storeUpdate docName update now m = (Ok tt, m') /\
             collection m' = collection m.
Proof.
  intros Hav Hid Hscratch Hfail.
  destruct (storeUpdate_decided docName update now m Hav)
    as (m' & Hcall & _ & _ & Hcoll).
  exists m'. split; [done|].
  rewrite Hid in Hcoll. unfold merged_document in Hcoll.
  by rewrite Hscratch, Hfail in Hcoll.
Qed.

(** A persisted snapshot that cannot be applied makes [storeUpdate] give up
    in the same way, whereas [getYDoc] answers it with a new document. *)
Lemma storeUpdate_unreadable_snapshot docName update now m oid :
  available m ->
  ObjectId docName = Some oid ->
  decode_snapshot (persisted_snapshot (collection m !! oid)) = None ->
  exists m', storeUpdate docName update now m = (Ok tt, m') /\
             collection m' = collection m.
Proof.
  intros Hav Hid Hnone.
  destruct (storeUpdate_decided docName update now m Hav)
    as (m' & Hcall & _ & _ & Hcoll).
  exists m'. split; [done|].
  rewrite Hid in Hcoll. unfold merged_document, existing_document in Hcoll.
  destruct (persisted_snapshot (collection m !! oid)) as [b|] eqn:Hb;
    [|done].
  by rewrite (persisted_snapshot_no_object _ _ Hb), Hnone in Hcoll.
Qed.

Lemma connect_unreachable m :
  isConnected m = false -> reachable m = false ->
  connect m = (Throw MongoConnectError, m).
Proof. intros Hc Hr. unfold connect. by rewrite Hc, Hr. Qed.

(** A field with a function for [length] that is not a [Binary]. *)
Lemma looks_corrupted_not_Binary docState :
  looks_corrupted docState && negb (holds_Binary docState) = true <->
  stateVector docState = Some FLengthMethod.
Proof.
  unfold looks_corrupted, holds_Binary.
  destruct (stateVector docState) as [[b|b|b| | |t]|]; simpl;
    rewrite ?andb_false_r; split; done.
Qed.

(** What [fixCorruptedDocument] does, as long as the store can be
    reached. *)
Lemma fixCorruptedDocument_available docName now m :
  available m ->
  exists m',
    fixCorruptedDocument docName now m = (Ok tt, m') /\
    isConnected m' = true /\ reachable m' = reachable m /\
    collection m'
    = match ObjectId docName with
      | Some oid => healed oid now (collection m)
      | None => collection m
      end.
Proof.
  intros Hav. unfold fixCorruptedDocument. unfold_async.
  pose proof (connect_reachable
                (record_call (CallFixCorruptedDocument docName) m)) as Hreach.
  destruct (connect_available _
              (available_record_call (CallFixCorruptedDocument docName) m Hav))
    as (m1 & Hconnect & Hcoll & _ & Hconn).
  rewrite Hconnect in *. simpl in Hreach, Hcoll.
  destruct (ObjectId docName) as [oid|] eqn:Hid; [|by eexists].
  rewrite Hcoll. unfold healed.
  destruct (collection m !! oid) as [docState|] eqn:Hfound; [|by eexists].
  pose proof (looks_corrupted_not_Binary docState) as Hcorrupt.
  destruct (looks_corrupted docState) eqn:Hl.
  - destruct (holds_Binary docState) eqn:Hb; simpl in Hcorrupt.
    + eexists. split; [done|]. repeat split; try done.
      destruct (stateVector docState) as [[b|b|b| | |t]|]; try done.
      destruct Hcorrupt as [_ Hc]. by specialize (Hc eq_refl).
    + destruct Hcorrupt as [Hc _]. rewrite (Hc eq_refl).
      eexists. split; [done|]. repeat split; try done.
      rewrite (unset_state_present oid now _ docState); by rewrite Hcoll.
  - simpl in Hcorrupt. eexists. split; [done|]. repeat split; try done.
    destruct (stateVector docState) as [[b|b|b| | |t]|]; try done.
    destruct Hcorrupt as [_ Hc]. by specialize (Hc eq_refl).
Qed.

(** What [getYDoc] does, as long as the store can be reached. *)
Lemma getYDoc_available docName now m :
  available m ->
  exists m',
    getYDoc docName now m
    = (Ok (match ObjectId docName with
           | Some oid => loaded (collection m !! oid)
           | None => new_Doc
           end), m') /\
    isConnected m' = true /\ reachable m' = reachable m /\
    collection m'
    = match ObjectId docName with
      | Some oid => healed oid now (collection m)
      | None => collection m
      end.
Proof.
  intros Hav. unfold getYDoc. unfold_async.
  assert (Hreach : reachable (record_call (CallGetYDoc docName) m) = reachable m)
    by done.
  destruct (connect_available _ (available_record_call (CallGetYDoc docName) m Hav))
    as (m1 & Hconnect & Hcoll & _ & Hconn).
  assert (Hreach1 : reachable m1 = reachable m).
  { unfold connect in Hconnect. repeat case_match; simplify_eq; done. }
  rewrite Hconnect. simpl in Hcoll.
  destruct (ObjectId docName) as [oid|] eqn:Hid; [|by eexists].
  rewrite Hcoll. unfold healed, loaded.
  destruct (collection m !! oid) as [docState|] eqn:Hfound; [|by eexists].
  pose proof (looks_corrupted_not_Binary docState) as Hcorrupt.
  destruct (looks_corrupted docState && negb (holds_Binary docState)) eqn:Hl.
  - destruct Hcorrupt as [Hc _]. specialize (Hc eq_refl).
    destruct (fixCorruptedDocument_available docName now m1 (or_introl Hconn))
      as (m2 & -> & Hconn2 & Hreach2 & Hcoll2).
    rewrite Hid, Hcoll in Hcoll2. unfold healed in Hcoll2.
    rewrite Hfound, Hc in Hcoll2.
    exists m2.
    unfold existing_document, stored_object, persisted_snapshot.
    rewrite Hc. simpl.
    repeat split; [done|congruence|done].
  - rewrite load_state_decode. eexists. split; [done|].
    repeat split; try done.
    destruct (stateVector docState) as [[b|b|b| | |t]|]; try done.
    destruct Hcorrupt as [_ Hc]. by specialize (Hc eq_refl).
Qed.

Lemma storeUpdate_available docName update now m :
  available m ->
  exists m', storeUpdate docName update now m = (Ok tt, m') /\
             isConnected m' = true /\ reachable m' = reachable m.
Proof.
  intros Hav.
  destruct (storeUpdate_decided docName update now m Hav)
    as (m' & Hcall & Hconn & Hreach & _).
  by exists m'.
Qed.

Lemma writeState_available docName (ydoc : Doc) now m :
  available m ->
  exists m', writeState docName ydoc now m = (Ok tt, m') /\
             isConnected m' = true /\ reachable m' = reachable m.
Proof.
  intros Hav. unfold writeState. unfold_async.
  pose proof (connect_reachable (record_call (CallWriteState docName) m))
    as Hreach.
  destruct (connect_available _
              (available_record_call (CallWriteState docName) m Hav))
    as (m1 & Hconnect & _ & _ & Hconn).
  rewrite Hconnect in *. simpl in Hreach.
  destruct (0 <? length (encodeStateAsUpdate ydoc))%nat; [|by eexists].
  destruct (ObjectId docName) as [oid|]; by eexists.
Qed.

End PersistenceFacts.

Section PersistenceClaims.
Context `{Yjs} `{Bson}.

(** C3, amended.  As long as the store can be reached, [getYDoc] returns a
    document and does not throw.  Without a record for the identifier, or
    with an identifier that does not convert, the document is a new one.
    A record whose field has a function for [length] without being a
    [Binary] has the field removed and its [updatedAt] refreshed, and the
    document is a new one.  In every other case the collection is left as it
    is.  The bytes of a [Buffer] or a [Binary] are applied to a new
    document, and the document is a new one when there are no bytes or when
    applying them throws.  An [Array], or another object with a [length]
    that is not a function, is handed to [Y.applyUpdate] as it is when its
    [length] is positive: the document is what [Y.applyUpdate] makes of that
    object, and a new one when it throws.  No field, an object without
    [length] and a primitive value give a new document. *)
Theorem getYDoc_returns_document (docName : string) (now : Z) (m : Mongo) :
  available m ->
  exists doc m',
    CustomMongoPersistence.getYDoc docName now m = (Ok doc, m') /\
    match ObjectId docName with
    | None => doc = new_Doc /\ collection m' = collection m
    | Some oid =>
        match collection m !! oid with
        | None => doc = new_Doc /\ collection m' = collection m
        | Some docState =>
            match stateVector docState with
            | Some FLengthMethod =>
                doc = new_Doc /\
                collection m'
                = <[oid := {| stateVector := None; updatedAt := now |}]>
                    (collection m)
            | Some (FBuffer b) | Some (FBinary b) =>
                doc = match b with
                      | [] => new_Doc
                      | _ => default new_Doc (decode_snapshot (Some b))
                      end /\
                collection m' = collection m
            | Some (FArrayLike o) =>
                doc = (if length_positive o then
                         match applyUpdate_object new_Doc o with
                         | (Ok _, d) => d
                         | (Throw _, _) => new_Doc
                         end
                       else new_Doc) /\
                collection m' = collection m
            | Some FObject | Some (FPrimitive _) | None =>
                doc = new_Doc /\ collection m' = collection m
            end
        end
    end.
Proof.
  intros Hav.
  destruct (getYDoc_available docName now m Hav)
    as (m' & Hcall & _ & _ & Hcoll).
  eexists _, m'. split; [exact Hcall|].
  destruct (ObjectId docName) as [oid|]; [|done].
  rewrite Hcoll.
  unfold loaded, existing_document, stored_object, persisted_snapshot, healed.
  destruct (collection m !! oid) as [docState|]; [|done].
  destruct (stateVector docState) as [[b|b|o| | |t]|]; simpl; try done.
  - by destruct b.
  - by destruct b.
  - destruct (length_positive o); [|done].
    by destruct (applyUpdate_object new_Doc o) as [[[]|e] d].
Qed.

(** C4, amended.  As long as the store can be reached, [storeUpdate]
    resolves.  With an identifier that converts it reads, merges and writes:
    the scratch document is the document of the record (the persisted
    snapshot applied to a new document; a new document when there is no
    record, no field, no bytes, or a field that is neither binary data nor
    array-like; for an array-like field what [Y.applyUpdate] makes of it),
    the update is applied to it, and the record of the identifier becomes
    the full-state encoding of the result together with the current time as
    [updatedAt].  When the identifier does not convert, or when
    [Y.applyUpdate] throws on what is stored or on the update, the error is
    caught and the collection is left as it is. *)
Theorem storeUpdate_reads_merges_writes
  (docName : string) (update : bytes) (now : Z) (m : Mongo) :
  available m ->
  exists m',
    CustomMongoPersistence.storeUpdate docName update now m = (Ok tt, m') /\
    collection m'
    = match ObjectId docName with
      | Some oid =>
          match merged_document (collection m !! oid) update with
          | Some merged =>
              <[oid := {| stateVector :=
                            Some (FBinary (encodeStateAsUpdate merged));
                          updatedAt := now |}]> (collection m)
          | None => collection m
          end
      | None => collection m
      end.
Proof.
  intros Hav.
  destruct (storeUpdate_decided docName update now m Hav)
    as (m' & Hcall & _ & _ & Hcoll).
  by exists m'.
Qed.

End PersistenceClaims.

Lemma getYDoc_returns_document_witness :
  available (Sample.mongo_with (Some FLengthMethod) 3) /\
  exists doc m',
    @CustomMongoPersistence.getYDoc Sample.log_engine Sample.hex_bson
      Sample.doc_id 7 (Sample.mongo_with (Some FLengthMethod) 3)
    = (Ok doc, m') /\
    doc = @new_Doc Sample.log_engine /\
    collection m'
    = <[Sample.doc_oid := {| stateVector := None; updatedAt := 7 |}]>
        (collection (Sample.mongo_with (Some FLengthMethod) 3)).
Proof.
  split; [by left|].
  destruct (@getYDoc_returns_document Sample.log_engine Sample.hex_bson
              Sample.doc_id 7 (Sample.mongo_with (Some FLengthMethod) 3))
    as (doc & m' & Hcall & Hcase); [by left|].
  exists doc, m'. split; [exact Hcall|]. exact Hcase.
Defined.

(** C3, as stated, fails.  A record whose snapshot field is a string is
    answered with a new document, but the field stays in the record.  A
    record whose field is an [Array] keeps it too, and the document is what
    [Y.applyUpdate] has made of the array, which is neither a new document
    nor the one that the bytes listed in the array encode.  With the store
    out of reach [getYDoc] rejects. *)
Lemma getYDoc_counterexample :
  (fst (@CustomMongoPersistence.getYDoc Sample.log_engine Sample.hex_bson
          Sample.doc_id 7 (Sample.mongo_with (Some (FPrimitive true)) 3))
   = Ok (@new_Doc Sample.log_engine) /\
   collection
     (snd (@CustomMongoPersistence.getYDoc Sample.log_engine Sample.hex_bson
             Sample.doc_id 7 (Sample.mongo_with (Some (FPrimitive true)) 3)))
     !! Sample.doc_oid
   = Some {| stateVector := Some (FPrimitive true); updatedAt := 3 |}) /\
  (fst (@CustomMongoPersistence.getYDoc Sample.log_engine Sample.hex_bson
          Sample.doc_id 7
          (Sample.mongo_with (Some (FArrayLike (JsArray [1; 1; 1; 0]%Z))) 3))
   = Ok {| store := [xee]; share := [] |} /\
   collection
     (snd (@CustomMongoPersistence.getYDoc Sample.log_engine Sample.hex_bson
             Sample.doc_id 7
             (Sample.mongo_with (Some (FArrayLike (JsArray [1; 1; 1; 0]%Z)))
                3)))
     !! Sample.doc_oid
   = Some {| stateVector := Some (FArrayLike (JsArray [1; 1; 1; 0]%Z));
             updatedAt := 3 |}) /\
  fst (@CustomMongoPersistence.getYDoc Sample.log_engine Sample.hex_bson
         Sample.doc_id 7 Sample.unreachable_mongo)
  = Throw MongoConnectError.
Proof. vm_compute. repeat split. Qed.

Lemma storeUpdate_reads_merges_writes_witness :
  (available (Sample.mongo_with (Some (FBinary (Sample.frame [x01]))) 3) /\
   @merged_document Sample.log_engine
     (collection (Sample.mongo_with (Some (FBinary (Sample.frame [x01]))) 3)
        !! Sample.doc_oid) (Sample.frame [x02])
   = Some Sample.two_texts) /\
  exists m',
    @CustomMongoPersistence.storeUpdate Sample.log_engine Sample.hex_bson
      Sample.doc_id (Sample.frame [x02]) 7
      (Sample.mongo_with (Some (FBinary (Sample.frame [x01]))) 3)
    = (Ok tt, m') /\
    collection m'
    = <[Sample.doc_oid := {| stateVector :=
                               Some (FBinary [x01; x02; x01; x02; x00]);
                             updatedAt := 7 |}]>
        (collection
           (Sample.mongo_with (Some (FBinary (Sample.frame [x01]))) 3)).
Proof.
  split; [split; [by left|reflexivity]|].
  exact (@storeUpdate_reads_merges_writes Sample.log_engine Sample.hex_bson
           Sample.doc_id (Sample.frame [x02]) 7
           (Sample.mongo_with (Some (FBinary (Sample.frame [x01]))) 3)
           (or_introl eq_refl)).
Defined.

(** C4, as stated, fails.  With a document name that is no identifier, with
    an update of no bytes, and with a stored snapshot that cannot be read,
    [storeUpdate] upserts nothing: the record keeps its snapshot and its
    [updatedAt]. *)
Lemma storeUpdate_counterexample :
  collection
    (snd (@CustomMongoPersistence.storeUpdate Sample.log_engine Sample.hex_bson
            "doc1" (Sample.frame [x02]) 7
            (Sample.mongo_with (Some (FBinary (Sample.frame [x01]))) 3)))
  = collection (Sample.mongo_with (Some (FBinary (Sample.frame [x01]))) 3) /\
  collection
    (snd (@CustomMongoPersistence.storeUpdate Sample.log_engine Sample.hex_bson
            Sample.doc_id [] 7
            (Sample.mongo_with (Some (FBinary (Sample.frame [x01]))) 3)))
    !! Sample.doc_oid
  = Some {| stateVector := Some (FBinary [x01; x01; x01; x00]);
            updatedAt := 3 |} /\
  collection
    (snd (@CustomMongoPersistence.storeUpdate Sample.log_engine Sample.hex_bson
            Sample.doc_id (Sample.frame [x02]) 7
            (Sample.mongo_with (Some (FBinary [xff])) 3)))
    !! Sample.doc_oid
  = Some {| stateVector := Some (FBinary [xff]); updatedAt := 3 |}.
Proof. vm_compute. repeat split. Qed.

(** ** The hooks *)

Section HookClaims.
Context `{Yjs} `{Bson}.

(** What the method [writeState] of the persistence class decides, and on
    what: the full-state encoding alone. *)
Lemma mdb_writeState_decision docName (ydoc : Doc) now m oid :
  available m ->
  ObjectId docName = Some oid ->
  collection (snd (CustomMongoPersistence.writeState docName ydoc now m))
  = if (0 <? length (encodeStateAsUpdate ydoc))%nat
    then <[oid := {| stateVector := Some (FBinary (encodeStateAsUpdate ydoc));
                     updatedAt := now |}]> (collection m)
    else collection m.
Proof.
  intros Hav Hid. unfold CustomMongoPersistence.writeState. unfold_async.
  destruct (connect_available _
              (available_record_call (CallWriteState docName) m Hav))
    as (m1 & -> & Hcoll & _ & _).
  simpl in Hcoll. rewrite Hid.
  destruct (0 <? length (encodeStateAsUpdate ydoc))%nat; simpl; by rewrite Hcoll.
Qed.

(** The method reads nothing of the document but its struct store. *)
Lemma mdb_writeState_store docName (ydoc ydoc' : Doc) now m :
  store ydoc' = store ydoc ->
  CustomMongoPersistence.writeState docName ydoc' now m
  = CustomMongoPersistence.writeState docName ydoc now m.
Proof.
  intros Hs. unfold CustomMongoPersistence.writeState, encodeStateAsUpdate.
  by rewrite Hs.
Qed.


(** C6, amended.  On the path of [storeUpdate] the extracted text decides
    nothing: whatever the shared document is, the listener leaves the same
    persistence state.  On the path of [writeState] the hook skips the write
    when the extracted text is empty; otherwise the persistence state is the
    one the method [writeState] of the persistence class leaves, which
    writes the full-state encoding of the document unless that encoding is
    empty.  The extracted text never supplies the bytes. *)
Theorem extracted_text_gates_writeState
  (docName : string) (b : Binding) (ydoc other : Doc)
  (update : bytes) (origin : Origin) (now : Z) (m : Mongo) :
  snd (Hooks.on_update docName b ydoc update origin now m)
  = snd (Hooks.on_update docName b other update origin now m) /\
  snd (Hooks.writeState docName ydoc now m)
  = (if (String.length (fst (extractTextFromYDoc ydoc)) =? 0)%nat then m
     else snd (CustomMongoPersistence.writeState docName ydoc now m)) /\
  (forall oid, available m -> ObjectId docName = Some oid ->
     collection (snd (CustomMongoPersistence.writeState docName ydoc now m))
     = if (0 <? length (encodeStateAsUpdate ydoc))%nat
       then <[oid := {| stateVector :=
                          Some (FBinary (encodeStateAsUpdate ydoc));
                        updatedAt := now |}]> (collection m)
       else collection m).
Proof.
  split; [|split].
  - unfold Hooks.on_update. destruct (isInitialLoad b); [done|].
    by destruct (Hooks.mdb_storeUpdate docName update now m).
  - unfold Hooks.writeState.
    pose proof (extractTextFromYDoc_store ydoc) as Hstore.
    destruct (extractTextFromYDoc ydoc) as [text ydoc']. simpl in *.
    destruct (String.length text =? 0)%nat; [done|].
    unfold Hooks.mdb_writeState.
    rewrite (mdb_writeState_store docName ydoc ydoc' now m Hstore).
    by destruct (CustomMongoPersistence.writeState docName ydoc now m).
  - intros oid. apply mdb_writeState_decision.
Qed.

(** *** The guard window *)





(** [bindState] changes the struct store of the live document by one
    [Y.applyUpdate] of the persisted full-state encoding, and only when the
    extractor reads some text from the persisted document; otherwise the
    struct store of the live document is the one it had. *)
Lemma bindState_merge docName (ydoc : Doc) now m persisted m1 :
  CustomMongoPersistence.getYDoc docName now m = (Ok persisted, m1) ->
  let '(r, b, d, m') := Hooks.bindState docName ydoc now m in
  m' = m1 /\
  if (0 <? String.length (fst (extractTextFromYDoc persisted)))%nat then
    store d
    = store (snd (applyUpdate (snd (extractTextFromYDoc ydoc))
                    (encodeStateAsUpdate persisted)))
  else store d = store ydoc /\ hasAppliedPersistedState b = false.
Proof.
  intros Hload. unfold Hooks.bindState, Hooks.mdb_getYDoc. rewrite Hload.
  pose proof (extractTextFromYDoc_store persisted) as Hp.
  destruct (extractTextFromYDoc persisted) as [persistedText p'].
  pose proof (extractTextFromYDoc_store ydoc) as Hy.
  destruct (extractTextFromYDoc ydoc) as [currentText y1].
  cbn [fst snd] in *.
  replace (encodeStateAsUpdate p') with (encodeStateAsUpdate persisted)
    by (unfold encodeStateAsUpdate; by rewrite Hp).
  destruct (0 <? String.length persistedText)%nat.
  - destruct (applyUpdate y1 (encodeStateAsUpdate persisted)) as [[[]|e] y2];
      cbn [fst snd]; [|done].
    pose proof (extractTextFromYDoc_store y2) as Hy2.
    destruct (extractTextFromYDoc y2) as [afterText y3]. by split.
  - pose proof (extractTextFromYDoc_store y1) as Hy1.
    destruct (extractTextFromYDoc y1) as [afterText y3].
    cbn [fst snd] in *. split; [done|]. split; [congruence|done].
Qed.


End HookClaims.

(** Two runs of [bindState] on the server's replica with local text.  A
    persisted snapshot with text under ['content'] is merged into it; a
    persisted snapshot that holds a map entry only, from which the extractor
    reads no text, is not merged, and the live document keeps the struct
    store it had. *)
Example bindState_merges_persisted_text :
  let '(r, b, d, m) :=
    @Hooks.bindState Sample.log_engine Sample.hex_bson Sample.doc_id
      Sample.server_replica 7
      (Sample.mongo_with (Some (FBinary (Sample.frame [x02]))) 3) in
  r = Ok tt /\ hasAppliedPersistedState b = true /\ store d = [x01; x02].
Proof. vm_compute. repeat split. Qed.

Example bindState_skips_persisted_map :
  let '(r, b, d, m) :=
    @Hooks.bindState Sample.log_engine Sample.hex_bson Sample.doc_id
      Sample.server_replica 7
      (Sample.mongo_with (Some (FBinary (Sample.frame [x03]))) 3) in
  r = Ok tt /\ hasAppliedPersistedState b = false /\ store d = [x01].
Proof. vm_compute. repeat split. Qed.




Lemma extracted_text_gates_writeState_witness :
  (available Sample.fresh_mongo /\
   @ObjectId Sample.hex_bson Sample.doc_id = Some Sample.doc_oid) /\
  collection (snd (@CustomMongoPersistence.writeState
                     Sample.log_engine Sample.hex_bson
                     Sample.doc_id Sample.server_replica 7 Sample.fresh_mongo))
  = <[Sample.doc_oid := {| stateVector := Some (FBinary (Sample.frame [x01]));
                           updatedAt := 7 |}]> ∅.
Proof.
  split; [split; [by right|reflexivity]|].
  exact (proj2 (proj2 (@extracted_text_gates_writeState
                         Sample.log_engine Sample.hex_bson Sample.doc_id
                         {| listener_registered := true; isInitialLoad := false;
                            hasAppliedPersistedState := false;
                            timeout_due := None |}
                         Sample.server_replica Sample.client_replica
                         [x01] None 7 Sample.fresh_mongo))
           Sample.doc_oid (or_intror eq_refl) eq_refl).
Defined.

(** C6, as stated, fails.  The two replicas of one document have the same
    non-empty full-state encoding; the extractor reads "hello" from the one
    and nothing from the other, and the [writeState] hook writes the snapshot
    for the first and skips the write for the second. *)
Lemma extracted_text_decides_write_counterexample :
  @encodeStateAsUpdate Sample.log_engine Sample.client_replica
  = @encodeStateAsUpdate Sample.log_engine Sample.server_replica /\
  @encodeStateAsUpdate Sample.log_engine Sample.server_replica
  = [x01; x01; x01; x00] /\
  fst (extractTextFromYDoc Sample.client_replica) = "hello" /\
  fst (extractTextFromYDoc Sample.server_replica) = "" /\
  collection (snd (@Hooks.writeState Sample.log_engine Sample.hex_bson
                     Sample.doc_id Sample.client_replica 7 Sample.fresh_mongo))
    !! Sample.doc_oid
  = Some {| stateVector := Some (FBinary [x01; x01; x01; x00]);
            updatedAt := 7 |} /\
  collection (snd (@Hooks.writeState Sample.log_engine Sample.hex_bson
                     Sample.doc_id Sample.server_replica 7 Sample.fresh_mongo))
    !! Sample.doc_oid
  = None.
Proof. vm_compute. repeat split. Qed.

(** ** Shutdown and the handshake *)

Section ProcessClaims.
Context `{Yjs} `{Bson}.

(** C8, amended.  On SIGINT or SIGTERM the handler first releases the
    connection of the persistence store ([mdb.destroy()]), then stops the
    server from accepting connections ([server.close()]), and then the
    process exits with code 0.  The handler calls neither [writeState] nor
    [storeUpdate]: the journal gains the call of [destroy] and nothing else,
    and the collection is the one before the signal. *)
Theorem shutdown_releases_store_then_closes (p : Process) :
  timeline (shutdown p)
  = (timeline p ++ [MdbDestroy; ServerClose; ProcessExit 0])%list /\
  journal (mdb (shutdown p)) = (journal (mdb p) ++ [CallDestroy])%list /\
  collection (mdb (shutdown p)) = collection (mdb p) /\
  isConnected (mdb (shutdown p)) = false /\
  accepting (shutdown p) = false /\
  exit_code (shutdown p) = Some 0%Z.
Proof.
  unfold shutdown, on_server_closed, on_signal,
    CustomMongoPersistence.destroy, disconnect.
  simpl. rewrite <- app_assoc.
  destruct (isConnected (mdb p)) eqn:Hc; simpl; by rewrite ?Hc.
Qed.

(** C9.  A document identifier that does not convert to the primary-key type
    of the store is refused at the handshake: the connection is not set up
    and the persistence object is left as it was, so that no call of
    [getYDoc], [storeUpdate] or [writeState] is made for it. *)
Theorem invalid_document_id_is_refused
  (docName : string) (token_valid : bool) (now : Z) (m : Mongo) :
  ObjectId docName = None ->
  exists refusal,
    setupWSConnection docName token_valid now m = (inl refusal, m) /\
    (token_valid = true -> refusal = InvalidDocumentId).
Proof.
  intros Hid. unfold setupWSConnection. rewrite Hid.
  destruct token_valid; simpl; eauto. eexists. split; [done|]. discriminate.
Qed.

End ProcessClaims.

(** C8, as stated, fails.  With one document open and the store connected,
    the handler releases the store before it closes the server, and the
    final state of the open document is never written: the journal shows the
    call of [destroy] alone and the record keeps its older snapshot. *)
Lemma shutdown_counterexample :
  timeline (@shutdown Sample.log_engine Sample.running)
  = [MdbDestroy; ServerClose; ProcessExit 0] /\
  @shutdown_as_specified Sample.log_engine Sample.running
  = [ServerClose; FinalFlush Sample.doc_id; MdbDestroy] /\
  journal (mdb (@shutdown Sample.log_engine Sample.running)) = [CallDestroy] /\
  collection (mdb (@shutdown Sample.log_engine Sample.running))
    !! Sample.doc_oid
  = Some {| stateVector := Some (FBinary (Sample.frame [x02]));
            updatedAt := 3 |}.
Proof. vm_compute. repeat split. Qed.

Lemma invalid_document_id_is_refused_witness :
  @ObjectId Sample.hex_bson "doc1" = None /\
  exists refusal,
    @setupWSConnection Sample.log_engine Sample.hex_bson "doc1" true 0
      Sample.fresh_mongo
    = (inl refusal, Sample.fresh_mongo) /\
    (true = true -> refusal = InvalidDocumentId).
Proof.
  split; [reflexivity|].
  apply (@invalid_document_id_is_refused Sample.log_engine Sample.hex_bson).
  reflexivity.
Defined.

(** * More properties of the code *)

(** ** The extractor *)

Lemma promoted_from_refl t : promoted_from t t.
Proof. by repeat split; [..|left]. Qed.

Lemma promoted_from_trans t1 t2 t3 :
  promoted_from t1 t2 -> promoted_from t2 t3 -> promoted_from t1 t3.
Proof.
  intros (Hm1 & Hs1 & Hc1) (Hm2 & Hs2 & Hc2).
  repeat split; [congruence|congruence|].
  destruct Hc1 as [Hc1|[Ha1 Hy1]], Hc2 as [Hc2|[Ha2 Hy2]].
  - left. congruence.
  - right. split; congruence.
  - right. split; congruence.
  - congruence.
Qed.

Section ExtractorMore.
Context {Store : Type}.
Implicit Types (d : YDoc Store).

Lemma registry_step_refl sh : registry_step sh sh.
Proof. intros n t Hn. eauto using promoted_from_refl. Qed.

Lemma registry_step_trans sh1 sh2 sh3 :
  registry_step sh1 sh2 -> registry_step sh2 sh3 -> registry_step sh1 sh3.
Proof.
  intros H12 H23 n t Hn.
  destruct (H12 n t Hn) as (t2 & Hn2 & Hp2).
  destruct (H23 n t2 Hn2) as (t3 & Hn3 & Hp3).
  eauto using promoted_from_trans.
Qed.

Lemma doc_get_registry_step d name c :
  c = YText -> registry_step (share d) (share (snd (doc_get d name c))).
Proof.
  intros -> n t Hn.
  destruct (String.eqb name n) eqn:E.
  - apply String.eqb_eq in E. subst n. unfold doc_get. rewrite Hn.
    destruct (bool_decide (ctor t = YText)) eqn:Hy; simpl.
    + eauto using promoted_from_refl.
    + destruct (bool_decide (ctor t = AbstractType)) eqn:Ha; simpl.
      * apply bool_decide_eq_true in Ha. rewrite share_get_set_eq.
        eexists. split; [done|]. repeat split; auto.
      * eauto using promoted_from_refl.
  - apply String.eqb_neq in E. rewrite doc_get_other by done.
    eauto using promoted_from_refl.
Qed.

Lemma get_registry_step d name :
  registry_step (share d) (share (snd (get d name))).
Proof.
  intros n t Hn. unfold get.
  destruct (share_get name (share d)) eqn:Hname; simpl.
  - eauto using promoted_from_refl.
  - destruct (String.eqb name n) eqn:E.
    + apply String.eqb_eq in E. congruence.
    + apply String.eqb_neq in E. rewrite share_get_set_ne by done.
      eauto using promoted_from_refl.
Qed.

Lemma extract_try_registry_step d :
  registry_step (share d) (share (snd (extract_try d))).
Proof.
  unfold extract_try, getText.
  pose proof (doc_get_registry_step d "content" YText eq_refl) as Hs1.
  destruct (doc_get d "content" YText) as [[content|e] d1]; simpl in Hs1;
    [|done].
  destruct (0 <? type_length content)%nat; [done|].
  pose proof (doc_get_registry_step d1 "lexical" YText eq_refl) as Hs2.
  destruct (doc_get d1 "lexical" YText) as [[lexical|e] d2]; simpl in Hs2;
    [|by eapply registry_step_trans].
  destruct (0 <? type_length lexical)%nat; [by eapply registry_step_trans|].
  pose proof (get_registry_step d2 "root") as Hs3.
  destruct (get d2 "root") as [rootAbstract d3]; simpl in Hs3.
  assert (Hs13 : registry_step (share d) (share d3))
    by eauto using registry_step_trans.
  destruct (root_text rootAbstract); [done|].
  pose proof (doc_get_registry_step d3 "editor" YText eq_refl) as Hs4.
  destruct (doc_get d3 "editor" YText) as [[editor|e] d4]; simpl in Hs4;
    [|by eapply registry_step_trans].
  destruct (0 <? type_length editor)%nat; by eapply registry_step_trans.
Qed.

(** Names other than the three that [getText] asks for keep their type. *)
Lemma extract_try_other_names d n :
  n <> "content" -> n <> "lexical" -> n <> "editor" ->
  forall t, share_get n (share d) = Some t ->
            share_get n (share (snd (extract_try d))) = Some t.
Proof.
  intros Hc Hl He t Hn. unfold extract_try, getText.
  pose proof (doc_get_other d "content" YText n ltac:(done)) as Ho1.
  destruct (doc_get d "content" YText) as [[content|e] d1]; simpl in Ho1;
    [|simpl; congruence].
  destruct (0 <? type_length content)%nat; [simpl; congruence|].
  pose proof (doc_get_other d1 "lexical" YText n ltac:(done)) as Ho2.
  destruct (doc_get d1 "lexical" YText) as [[lexical|e] d2]; simpl in Ho2;
    [|simpl; congruence].
  destruct (0 <? type_length lexical)%nat; [simpl; congruence|].
  assert (Ho3 : share_get n (share (snd (get d2 "root"))) = Some t).
  { unfold get. destruct (share_get "root" (share d2)) eqn:Hroot; simpl.
    - congruence.
    - destruct (String.eqb "root" n) eqn:E.
      + apply String.eqb_eq in E. congruence.
      + apply String.eqb_neq in E. rewrite share_get_set_ne by done.
        congruence. }
  destruct (get d2 "root") as [rootAbstract d3]; simpl in Ho3.
  destruct (root_text rootAbstract); [simpl; congruence|].
  pose proof (doc_get_other d3 "editor" YText n ltac:(done)) as Ho4.
  destruct (doc_get d3 "editor" YText) as [[editor|e] d4]; simpl in Ho4;
    [|simpl; congruence].
  destruct (0 <? type_length editor)%nat; simpl; congruence.
Qed.

(** X1.  The extractor never changes what a document holds.  The struct
    store is left as it is, and a shared type that is registered before the
    call is registered after it with the same entries and the same chain of
    structs; its class is the same too, unless it was a plain
    [AbstractType] that [getText] turned into a [YText].  A type under a
    name other than ['content'], ['lexical'] and ['editor'] is not touched
    at all. *)
Theorem extractTextFromYDoc_preserves_contents d (n : string) (t : SharedType) :
  share_get n (share d) = Some t ->
  store (snd (extractTextFromYDoc d)) = store d /\
  (exists t', share_get n (share (snd (extractTextFromYDoc d))) = Some t' /\
              promoted_from t t') /\
  (n <> "content" -> n <> "lexical" -> n <> "editor" ->
   share_get n (share (snd (extractTextFromYDoc d))) = Some t).
Proof.
  intros Hn. split; [apply extractTextFromYDoc_store|].
  pose proof (extract_try_registry_step d n t Hn) as Hstep.
  pose proof (fun Hc Hl He => extract_try_other_names d n Hc Hl He t Hn)
    as Hother.
  unfold extractTextFromYDoc.
  by destruct (extract_try d) as [[text|e] d'].
Qed.

End ExtractorMore.

Lemma extractTextFromYDoc_preserves_contents_witness :
  share_get "notes" (share Sample.two_texts)
  = Some (Sample.text_type AbstractType "hello") /\
  share_get "content" (share Sample.two_texts)
  = Some (Sample.text_type AbstractType "hi") /\
  share_get "notes" (share (snd (extractTextFromYDoc Sample.two_texts)))
  = Some (Sample.text_type AbstractType "hello") /\
  exists t',
    share_get "content" (share (snd (extractTextFromYDoc Sample.two_texts)))
    = Some t' /\
    promoted_from (Sample.text_type AbstractType "hi") t'.
Proof.
  split; [reflexivity|]. split; [reflexivity|]. split.
  - apply (extractTextFromYDoc_preserves_contents Sample.two_texts "notes");
      [reflexivity|done..].
  - apply (extractTextFromYDoc_preserves_contents Sample.two_texts "content").
    reflexivity.
Defined.

Section ExtractorTwice.
Context {Store : Type}.
Implicit Types (d : YDoc Store).

Lemma doc_get_YText_result d name t d1 :
  doc_get d name YText = (Ok t, d1) ->
  share_get name (share d1) = Some t /\ ctor t = YText.
Proof.
  unfold doc_get. destruct (share_get name (share d)) as [type|] eqn:Hn.
  - destruct (bool_decide (ctor type = YText)) eqn:Hy; simpl.
    + apply bool_decide_eq_true in Hy. intros [= <- <-]. done.
    + destruct (bool_decide (ctor type = AbstractType)); [|done].
      intros [= <- <-]. simpl. by rewrite share_get_set_eq.
  - intros [= <- <-]. simpl. by rewrite share_get_set_eq.
Qed.

Lemma doc_get_YText_stable d name t :
  share_get name (share d) = Some t -> ctor t = YText ->
  doc_get d name YText = (Ok t, d).
Proof.
  intros Hn Hy. unfold doc_get. rewrite Hn.
  by rewrite (bool_decide_eq_true_2 _ Hy).
Qed.

Lemma get_result d name t d1 :
  get d name = (t, d1) -> share_get name (share d1) = Some t.
Proof.
  unfold get. destruct (share_get name (share d)) as [type|] eqn:Hn.
  - by intros [= <- <-].
  - intros [= <- <-]. simpl. by rewrite share_get_set_eq.
Qed.

Lemma get_stable d name t :
  share_get name (share d) = Some t -> get d name = (t, d).
Proof. intros Hn. unfold get. by rewrite Hn. Qed.

Lemma extract_try_twice d r d' :
  extract_try d = (r, d') -> extract_try d' = (r, d').
Proof.
  intros Hrun. unfold extract_try, getText in Hrun.
  destruct (doc_get d "content" YText) as [[content|e] d1] eqn:H1.
  2:{ pose proof (getText_throw_same _ _ _ _ H1) as ->.
      injection Hrun as <- <-.
      unfold extract_try, getText. by rewrite H1. }
  destruct (doc_get_YText_result _ _ _ _ H1) as [Hc1 Hcy].
  destruct (0 <? type_length content)%nat eqn:Hlen1.
  { injection Hrun as <- <-. unfold extract_try, getText.
    rewrite (doc_get_YText_stable _ _ _ Hc1 Hcy). by rewrite Hlen1. }
  destruct (doc_get d1 "lexical" YText) as [[lexical|e] d2] eqn:H2.
  2:{ pose proof (getText_throw_same _ _ _ _ H2) as ->.
      injection Hrun as <- <-. unfold extract_try, getText.
      rewrite (doc_get_YText_stable _ _ _ Hc1 Hcy), Hlen1. by rewrite H2. }
  destruct (doc_get_YText_result _ _ _ _ H2) as [Hl2 Hly].
  assert (Hc2 : share_get "content" (share d2) = Some content).
  { pose proof (doc_get_other d1 "lexical" YText "content" ltac:(done)) as Ho.
    rewrite H2 in Ho. simpl in Ho. congruence. }
  destruct (0 <? type_length lexical)%nat eqn:Hlen2.
  { injection Hrun as <- <-. unfold extract_try, getText.
    rewrite (doc_get_YText_stable _ _ _ Hc2 Hcy), Hlen1.
    rewrite (doc_get_YText_stable _ _ _ Hl2 Hly). by rewrite Hlen2. }
  destruct (get d2 "root") as [rootAbstract d3] eqn:H3.
  pose proof (get_result _ _ _ _ H3) as Hr3.
  assert (Hc3 : share_get "content" (share d3) = Some content).
  { pose proof (get_other d2 "root" "content" ltac:(done)) as Ho.
    rewrite H3 in Ho. simpl in Ho. congruence. }
  assert (Hl3 : share_get "lexical" (share d3) = Some lexical).
  { pose proof (get_other d2 "root" "lexical" ltac:(done)) as Ho.
    rewrite H3 in Ho. simpl in Ho. congruence. }
  destruct (root_text rootAbstract) as [text|] eqn:Hroot.
  { injection Hrun as <- <-. unfold extract_try, getText.
    rewrite (doc_get_YText_stable _ _ _ Hc3 Hcy), Hlen1.
    rewrite (doc_get_YText_stable _ _ _ Hl3 Hly), Hlen2.
    rewrite (get_stable _ _ _ Hr3). by rewrite Hroot. }
  destruct (doc_get d3 "editor" YText) as [[editor|e] d4] eqn:H4.
  2:{ pose proof (getText_throw_same _ _ _ _ H4) as ->.
      injection Hrun as <- <-. unfold extract_try, getText.
      rewrite (doc_get_YText_stable _ _ _ Hc3 Hcy), Hlen1.
      rewrite (doc_get_YText_stable _ _ _ Hl3 Hly), Hlen2.
      rewrite (get_stable _ _ _ Hr3), Hroot. by rewrite H4. }
  destruct (doc_get_YText_result _ _ _ _ H4) as [He4 Hey].
  assert (Hc4 : share_get "content" (share d4) = Some content).
  { pose proof (doc_get_other d3 "editor" YText "content" ltac:(done)) as Ho.
    rewrite H4 in Ho. simpl in Ho. congruence. }
  assert (Hl4 : share_get "lexical" (share d4) = Some lexical).
  { pose proof (doc_get_other d3 "editor" YText "lexical" ltac:(done)) as Ho.
    rewrite H4 in Ho. simpl in Ho. congruence. }
  assert (Hr4 : share_get "root" (share d4) = Some rootAbstract).
  { pose proof (doc_get_other d3 "editor" YText "root" ltac:(done)) as Ho.
    rewrite H4 in Ho. simpl in Ho. congruence. }
  assert (Hagain :
    extract_try d4
    = if (0 <? type_length editor)%nat then (Ok (toString editor), d4)
      else (Ok (fallback_text (share d4)), d4)).
  { unfold extract_try, getText.
    rewrite (doc_get_YText_stable _ _ _ Hc4 Hcy), Hlen1.
    rewrite (doc_get_YText_stable _ _ _ Hl4 Hly), Hlen2.
    rewrite (get_stable _ _ _ Hr4), Hroot.
    by rewrite (doc_get_YText_stable _ _ _ He4 Hey). }
  destruct (0 <? type_length editor)%nat eqn:Hlen4;
    injection Hrun as <- <-; by rewrite Hagain.
Qed.

(** X2.  Extracting twice is extracting once: on the document that a call
    leaves, a second call returns the same text and leaves that document as
    it is.  The names that the first call registers are all the extractor
    ever adds. *)
Theorem extractTextFromYDoc_twice d :
  extractTextFromYDoc (snd (extractTextFromYDoc d))
  = (fst (extractTextFromYDoc d), snd (extractTextFromYDoc d)).
Proof.
  unfold extractTextFromYDoc.
  destruct (extract_try d) as [[text|e] d'] eqn:Hfirst; simpl;
    by rewrite (extract_try_twice _ _ _ Hfirst).
Qed.

(** X3.  A ['content'] of another class than [Y.Text] (a [Y.Map], a
    [Y.XmlFragment], ...) makes [getText] throw at the first step: the
    extractor returns [""] without looking at any other type, and leaves the
    document exactly as it was. *)
Theorem extractTextFromYDoc_content_of_other_class d (t : SharedType) :
  share_get "content" (share d) = Some t ->
  ctor t <> YText -> ctor t <> AbstractType ->
  extractTextFromYDoc d = ("", d).
Proof.
  intros Hc Hy Ha. unfold extractTextFromYDoc, extract_try, getText, doc_get.
  rewrite Hc.
  rewrite (bool_decide_eq_false_2 _ Hy), (bool_decide_eq_false_2 _ Ha).
  done.
Qed.

Lemma share_set_names name t sh :
  share_has name sh = true ->
  map fst (share_set name t sh) = map fst sh.
Proof.
  unfold share_has. induction sh as [|[k t'] rest IH]; simpl; [done|].
  destruct (String.eqb k name) eqn:E; simpl; [done|].
  intros Hh. by rewrite IH.
Qed.

(** X4.  A ['content'] that is a text (or a plain [AbstractType], which
    [getText] turns into one) and has a positive length decides the result:
    the text is the string content of its chain, which is [""] when the
    chain holds no string, and no other type is read, so no name is added
    to the registry and every other name keeps its type. *)
Theorem extractTextFromYDoc_content_first d (t : SharedType) :
  share_get "content" (share d) = Some t ->
  ctor t = YText \/ ctor t = AbstractType ->
  (0 < type_length t)%nat ->
  fst (extractTextFromYDoc d) = text_toString t /\
  map fst (share (snd (extractTextFromYDoc d))) = map fst (share d) /\
  forall n, n <> "content" ->
    share_get n (share (snd (extractTextFromYDoc d))) = share_get n (share d).
Proof.
  intros Hc Hclass Hlen. apply Nat.ltb_lt in Hlen.
  unfold extractTextFromYDoc, extract_try, getText, doc_get. rewrite Hc.
  destruct Hclass as [Hy|Ha].
  - rewrite (bool_decide_eq_true_2 _ Hy). simpl. rewrite Hlen. simpl.
    unfold toString. rewrite Hy. done.
  - assert (Hny : ctor t <> YText) by congruence.
    rewrite (bool_decide_eq_false_2 _ Hny), (bool_decide_eq_true_2 _ Ha).
    simpl.
    change (type_length {| ctor := YText; _map := _map t; _start := _start t;
                           _item := None; xml_string := "";
                           xml_children := [] |})
      with (type_length t).
    rewrite Hlen. simpl. split; [done|]. split.
    + apply share_set_names. unfold share_has. by rewrite Hc.
    + intros n Hn. by apply share_get_set_ne.
Qed.

End ExtractorTwice.

(** ** The persistence class, further *)

Section PersistenceMore.
Context `{Yjs} `{Bson}.
Import CustomMongoPersistence.

(** X5.  With the store out of reach every method of the persistence class
    that awaits [connect] rejects with the error of the driver: the call to
    [connect] stands before the [try] block, so the [catch] that answers
    every other error does not see this one.  Nothing else happens: the
    collection and the connection flag are as before. *)
Theorem methods_reject_when_store_is_unreachable
  (docName : string) (update : bytes) (ydoc : Doc) (now : Z) (m : Mongo) :
  isConnected m = false -> reachable m = false ->
  getYDoc docName now m
  = (Throw MongoConnectError, record_call (CallGetYDoc docName) m) /\
  storeUpdate docName update now m
  = (Throw MongoConnectError, record_call (CallStoreUpdate docName update) m) /\
  writeState docName ydoc now m
  = (Throw MongoConnectError, record_call (CallWriteState docName) m) /\
  fixCorruptedDocument docName now m
  = (Throw MongoConnectError,
     record_call (CallFixCorruptedDocument docName) m) /\
  listAllDocuments m = (Throw MongoConnectError, m).
Proof.
  intros Hc Hr.
  unfold getYDoc, storeUpdate, writeState, fixCorruptedDocument,
    listAllDocuments.
  unfold_async.
  rewrite !connect_unreachable by done. done.
Qed.

(** X6.  With the store within reach, [storeUpdate], [writeState],
    [fixCorruptedDocument] and [listAllDocuments] resolve, whatever the
    identifier, the update, the document and the record that is found: an
    identifier that does not convert, a stored snapshot or an update that
    [Y.applyUpdate] refuses are caught and logged.  The connection is open
    afterwards. *)
Theorem methods_resolve_when_store_is_available
  (docName : string) (update : bytes) (ydoc : Doc) (now : Z) (m : Mongo) :
  available m ->
  (exists m', storeUpdate docName update now m = (Ok tt, m') /\
              isConnected m' = true) /\
  (exists m', writeState docName ydoc now m = (Ok tt, m') /\
              isConnected m' = true) /\
  (exists m', fixCorruptedDocument docName now m = (Ok tt, m') /\
              isConnected m' = true) /\
  (exists m', listAllDocuments m = (Ok tt, m') /\
              isConnected m' = true /\ collection m' = collection m).
Proof.
  intros Hav. repeat split.
  - destruct (storeUpdate_available docName update now m Hav)
      as (m' & Hcall & Hconn & _). eauto.
  - destruct (writeState_available docName ydoc now m Hav)
      as (m' & Hcall & Hconn & _). eauto.
  - unfold fixCorruptedDocument at 1. unfold_async.
    destruct (connect_available _
                (available_record_call (CallFixCorruptedDocument docName) m Hav))
      as (m1 & -> & _ & _ & Hconn).
    destruct (ObjectId docName) as [oid|]; [|by eexists].
    destruct (collection m1 !! oid) as [docState|]; [|by eexists].
    destruct (looks_corrupted docState); [|by eexists].
    destruct (holds_Binary docState); by eexists.
  - unfold listAllDocuments. unfold_async.
    destruct (connect_available m Hav) as (m1 & -> & Hcoll & _ & Hconn).
    by eexists.
Qed.

(** The four methods look at one record only. *)
Lemma fixCorruptedDocument_frame docName now m oid' :
  ObjectId docName <> Some oid' ->
  collection (snd (fixCorruptedDocument docName now m)) !! oid'
  = collection m !! oid'.
Proof.
  intros Hother. unfold fixCorruptedDocument. unfold_async.
  pose proof (connect_collection
                (record_call (CallFixCorruptedDocument docName) m)) as Hc.
  destruct (connect _) as [[[]|e] m1]; simpl in Hc; [|simpl; congruence].
  destruct (ObjectId docName) as [oid|] eqn:Hid; [|simpl; congruence].
  assert (oid <> oid') by congruence.
  destruct (collection m1 !! oid) as [docState|]; [|simpl; congruence].
  destruct (looks_corrupted docState); [|simpl; congruence].
  destruct (holds_Binary docState); [simpl; congruence|].
  simpl. rewrite lookup_alter_ne by done. congruence.
Qed.

Lemma getYDoc_frame docName now m oid' :
  ObjectId docName <> Some oid' ->
  collection (snd (getYDoc docName now m)) !! oid' = collection m !! oid'.
Proof.
  intros Hother. unfold getYDoc. unfold_async.
  pose proof (connect_collection (record_call (CallGetYDoc docName) m)) as Hc.
  destruct (connect _) as [[[]|e] m1]; simpl in Hc; [|simpl; congruence].
  destruct (ObjectId docName) as [oid|] eqn:Hid; [|simpl; congruence].
  destruct (collection m1 !! oid) as [docState|]; [|simpl; congruence].
  destruct (looks_corrupted docState && negb (holds_Binary docState)).
  - rewrite <- Hid in Hother.
    pose proof (fixCorruptedDocument_frame docName now m1 oid' Hother) as Hfix.
    destruct (fixCorruptedDocument docName now m1) as [[[]|e] m2];
      simpl in *; congruence.
  - rewrite load_state_decode. simpl. congruence.
Qed.

Lemma storeUpdate_frame docName update now m oid' :
  ObjectId docName <> Some oid' ->
  collection (snd (storeUpdate docName update now m)) !! oid'
  = collection m !! oid'.
Proof.
  intros Hother. unfold storeUpdate. unfold_async.
  pose proof (connect_collection
                (record_call (CallStoreUpdate docName update) m)) as Hc.
  destruct (connect _) as [[[]|e] m1]; simpl in Hc; [|simpl; congruence].
  destruct (ObjectId docName) as [oid|] eqn:Hid; [|simpl; congruence].
  assert (oid <> oid') by congruence.
  unfold resolve. cbv beta iota.
  pose proof (existing_state_document (collection m1 !! oid) m1) as Hexisting.
  destruct (existing_document (collection m1 !! oid)) as [scratch|].
  - rewrite Hexisting.
    destruct (applyUpdate scratch update) as [[[]|e] d']; [|simpl; congruence].
    simpl. rewrite lookup_insert_ne by done. congruence.
  - destruct Hexisting as [e ->]. simpl. congruence.
Qed.

Lemma writeState_frame docName (ydoc : Doc) now m oid' :
  ObjectId docName <> Some oid' ->
  collection (snd (writeState docName ydoc now m)) !! oid'
  = collection m !! oid'.
Proof.
  intros Hother. unfold writeState. unfold_async.
  pose proof (connect_collection (record_call (CallWriteState docName) m))
    as Hc.
  destruct (connect _) as [[[]|e] m1]; simpl in Hc; [|simpl; congruence].
  destruct (0 <? length (encodeStateAsUpdate ydoc))%nat; [|simpl; congruence].
  destruct (ObjectId docName) as [oid|] eqn:Hid; [|simpl; congruence].
  assert (oid <> oid') by congruence.
  simpl. rewrite lookup_insert_ne by done. congruence.
Qed.

(** X7.  A method called for one document never touches the record of
    another: whatever [getYDoc], [storeUpdate], [writeState] and
    [fixCorruptedDocument] do, the record under an identifier other than the
    one the document name converts to is the one before the call, and so is
    every record when the name does not convert. *)
Theorem methods_leave_other_records
  (docName : string) (update : bytes) (ydoc : Doc) (now : Z) (m : Mongo)
  (oid' : N) :
  ObjectId docName <> Some oid' ->
  collection (snd (getYDoc docName now m)) !! oid' = collection m !! oid' /\
  collection (snd (storeUpdate docName update now m)) !! oid'
  = collection m !! oid' /\
  collection (snd (writeState docName ydoc now m)) !! oid'
  = collection m !! oid' /\
  collection (snd (fixCorruptedDocument docName now m)) !! oid'
  = collection m !! oid'.
Proof.
  intros Hother.
  auto using getYDoc_frame, storeUpdate_frame, writeState_frame,
    fixCorruptedDocument_frame.
Qed.

Lemma kept_or_stripped_refl (found : option DocumentState) :
  option_Forall2 kept_or_stripped found found.
Proof. destruct found; constructor. by left. Qed.

Lemma healed_kept oid now c oid' :
  option_Forall2 kept_or_stripped (c !! oid') (healed oid now c !! oid').
Proof.
  unfold healed.
  destruct (c !! oid) as [docState|] eqn:Hfound;
    [|apply kept_or_stripped_refl].
  destruct (stateVector docState) as [[b|b|b| | |t]|] eqn:Hsv;
    try apply kept_or_stripped_refl.
  destruct (decide (oid = oid')) as [<-|Hne].
  - rewrite lookup_insert_eq, Hfound. constructor. by right.
  - rewrite lookup_insert_ne by done. apply kept_or_stripped_refl.
Qed.

Lemma kept_or_stripped_snapshot (found found' : option DocumentState) :
  option_Forall2 kept_or_stripped found found' ->
  persisted_snapshot found' = persisted_snapshot found.
Proof.
  intros [st st' [->|[Hsv Hsv']]|]; [done| |done].
  unfold persisted_snapshot. by rewrite Hsv, Hsv'.
Qed.

Lemma kept_or_stripped_document (found found' : option DocumentState) :
  option_Forall2 kept_or_stripped found found' ->
  existing_document found' = existing_document found.
Proof.
  intros Hkept. unfold existing_document.
  rewrite (kept_or_stripped_snapshot _ _ Hkept).
  destruct Hkept as [st st' [->|[Hsv Hsv']]|]; [done| |done].
  unfold stored_object. by rewrite Hsv, Hsv'.
Qed.

Lemma healed_twice oid now now' c :
  healed oid now' (healed oid now c) = healed oid now c.
Proof.
  destruct (c !! oid) as [docState|] eqn:Hfound.
  - destruct (stateVector docState) as [[b|b|b| | |t]|] eqn:Hsv;
      unfold healed; rewrite Hfound, Hsv, ?lookup_insert_eq;
      by rewrite ?Hfound, ?Hsv.
  - unfold healed. by rewrite !Hfound.
Qed.

Lemma getYDoc_kept docName now m oid :
  option_Forall2 kept_or_stripped
    (collection m !! oid) (collection (snd (getYDoc docName now m)) !! oid).
Proof.
  destruct (isConnected m) eqn:Hc; [|destruct (reachable m) eqn:Hr].
  3:{ unfold getYDoc. unfold_async. rewrite connect_unreachable by done.
      apply kept_or_stripped_refl. }
  all: destruct (getYDoc_available docName now m)
         as (m' & Hcall & _ & _ & Hcoll);
    [by (left + right)|];
    rewrite Hcall; cbn [snd]; rewrite Hcoll;
    destruct (ObjectId docName);
    [apply healed_kept|apply kept_or_stripped_refl].
Qed.

(** X8.  Loading a document never costs a snapshot.  Whatever [getYDoc]
    does to the collection, no record is added or removed, and each record
    is the one before the call or has lost a field that had a function for
    [length]; the snapshot that a later [getYDoc] or [storeUpdate] reads
    from any record is the same as before. *)
Theorem getYDoc_keeps_every_snapshot
  (docName : string) (now : Z) (m : Mongo) (oid : N) :
  option_Forall2 kept_or_stripped
    (collection m !! oid) (collection (snd (getYDoc docName now m)) !! oid) /\
  persisted_snapshot (collection (snd (getYDoc docName now m)) !! oid)
  = persisted_snapshot (collection m !! oid).
Proof.
  split; [apply getYDoc_kept|].
  apply kept_or_stripped_snapshot, getYDoc_kept.
Qed.

(** X9.  Loading twice is loading once: a second [getYDoc] for the same
    name, at whatever time, returns what the first returned (the same
    document, or the same rejection) and leaves the collection as the first
    left it.  The repair of a record happens once. *)
Theorem getYDoc_twice (docName : string) (now now' : Z) (m : Mongo) :
  fst (getYDoc docName now' (snd (getYDoc docName now m)))
  = fst (getYDoc docName now m) /\
  collection (snd (getYDoc docName now' (snd (getYDoc docName now m))))
  = collection (snd (getYDoc docName now m)).
Proof.
  assert (Hcases : available m \/
                   (isConnected m = false /\ reachable m = false)).
  { unfold available.
    destruct (isConnected m), (reachable m); auto. }
  destruct Hcases as [Hav|[Hc Hr]].
  - destruct (getYDoc_available docName now m Hav)
      as (m1 & -> & Hconn1 & _ & Hcoll1).
    destruct (getYDoc_available docName now' m1)
      as (m2 & Hcall2 & _ & _ & Hcoll2); [by left|].
    cbn [fst snd]. rewrite Hcall2. cbn [fst snd]. rewrite Hcoll2, Hcoll1.
    destruct (ObjectId docName) as [oid|]; [|done].
    split; [|apply healed_twice].
    unfold loaded.
    by rewrite (kept_or_stripped_document _ _ (healed_kept oid now _ oid)).
  - unfold getYDoc. unfold_async.
    rewrite (connect_unreachable (record_call _ m)) by done.
    cbn [fst snd].
    by rewrite (connect_unreachable (record_call _ (record_call _ m))).
Qed.

(** X10.  What [writeState] writes is what [getYDoc] reads.  After a
    [writeState] of a document with a non-empty encoding, [getYDoc] for the
    same name returns that encoding applied to a new document (or a new
    document, when [Y.applyUpdate] refuses it), and the read leaves the
    record as [writeState] wrote it. *)
Theorem getYDoc_after_writeState
  (docName : string) (ydoc : Doc) (now now' : Z) (m : Mongo) (oid : N) :
  available m ->
  ObjectId docName = Some oid ->
  (0 < length (encodeStateAsUpdate ydoc))%nat ->
  exists m',
    getYDoc docName now' (snd (writeState docName ydoc now m))
    = (Ok (default new_Doc
             (decode_snapshot (Some (encodeStateAsUpdate ydoc)))), m') /\
    collection m'
    = <[oid := {| stateVector := Some (FBinary (encodeStateAsUpdate ydoc));
                  updatedAt := now |}]> (collection m).
Proof.
  intros Hav Hid Hlen.
  pose proof (mdb_writeState_decision docName ydoc now m oid Hav Hid) as Hwrote.
  apply Nat.ltb_lt in Hlen. rewrite Hlen in Hwrote.
  destruct (writeState_available docName ydoc now m Hav)
    as (m1 & Hcall & Hconn & _).
  rewrite Hcall in *. cbn [snd] in *.
  destruct (getYDoc_available docName now' m1)
    as (m2 & Hcall2 & _ & _ & Hcoll2); [by left|].
  exists m2. rewrite Hcall2, Hcoll2, Hid, Hwrote. unfold loaded, healed.
  rewrite lookup_insert_eq.
  cbn [stateVector]. split; [|done].
  unfold existing_document, stored_object, persisted_snapshot.
  cbn [stateVector binary_payload].
  by destruct (encodeStateAsUpdate ydoc).
Qed.

(** X11.  A snapshot that [Y.applyUpdate] refuses is never replaced by
    [storeUpdate].  [getYDoc] answers such a record with a new document,
    but every [storeUpdate] that follows applies the stored snapshot first,
    fails there and is caught: whatever updates the listener hands over, the
    record stays as it is, and a later [getYDoc] starts from a new document
    again. *)
Theorem unreadable_snapshot_is_never_replaced
  (docName : string) (updates : list (bytes * Z)) (now : Z) (m : Mongo)
  (oid : N) :
  available m ->
  ObjectId docName = Some oid ->
  decode_snapshot (persisted_snapshot (collection m !! oid)) = None ->
  collection (storeUpdates docName updates m) = collection m /\
  exists m',
    getYDoc docName now (storeUpdates docName updates m) = (Ok new_Doc, m') /\
    collection m' = collection m.
Proof.
  intros Hav Hid Hnone.
  assert (Hloop : collection (storeUpdates docName updates m) = collection m /\
                  available (storeUpdates docName updates m)).
  { unfold storeUpdates. revert m Hav Hnone.
    induction updates as [|[update t] updates IH]; intros m Hav Hnone;
      [done|].
    cbn [fold_left fst snd].
    destruct (storeUpdate_unreadable_snapshot docName update t m oid
                Hav Hid Hnone) as (m1 & Hcall & Hcoll).
    destruct (storeUpdate_available docName update t m Hav)
      as (m1' & Hcall' & Hconn & _).
    rewrite Hcall in *. injection Hcall' as <-. cbn [snd].
    destruct (IH m1) as [Hcoll' Hav']; [by left|by rewrite Hcoll|].
    split; [congruence|done]. }
  destruct Hloop as [Hcoll Hav']. split; [done|].
  destruct (getYDoc_available docName now _ Hav')
    as (m' & Hcall & _ & _ & Hcoll').
  exists m'. rewrite Hcall, Hcoll', Hid, Hcoll.
  unfold loaded, existing_document.
  destruct (persisted_snapshot (collection m !! oid)) as [b|] eqn:Hb;
    [|done].
  rewrite (persisted_snapshot_no_object _ _ Hb), Hnone.
  split; [done|]. unfold healed.
  destruct (collection m !! oid) as [docState|]; [|done].
  unfold persisted_snapshot in Hb.
  by destruct (stateVector docState) as [[b'|b'|o| | |t]|].
Qed.

(** X23.  The repair of a record loses no snapshot and happens once.
    [fixCorruptedDocument] adds and removes no record; a record is the one
    before the call or has lost a field that had a function for [length],
    so that the snapshot read from it is the same; and after one call a
    second call, at whatever time, leaves the collection as it is. *)
Theorem fixCorruptedDocument_repairs_once
  (docName : string) (now now' : Z) (m : Mongo) (oid : N) :
  option_Forall2 kept_or_stripped
    (collection m !! oid)
    (collection (snd (fixCorruptedDocument docName now m)) !! oid) /\
  persisted_snapshot
    (collection (snd (fixCorruptedDocument docName now m)) !! oid)
  = persisted_snapshot (collection m !! oid) /\
  collection (snd (fixCorruptedDocument docName now'
                     (snd (fixCorruptedDocument docName now m))))
  = collection (snd (fixCorruptedDocument docName now m)).
Proof.
  assert (Hcases : available m \/
                   (isConnected m = false /\ reachable m = false)).
  { unfold available. destruct (isConnected m), (reachable m); auto. }
  destruct Hcases as [Hav|[Hc Hr]].
  - destruct (fixCorruptedDocument_available docName now m Hav)
      as (m1 & Hcall1 & Hconn1 & _ & Hcoll1).
    destruct (fixCorruptedDocument_available docName now' m1 (or_introl Hconn1))
      as (m2 & Hcall2 & _ & _ & Hcoll2).
    rewrite Hcall1. cbn [snd]. rewrite Hcall2. cbn [snd].
    rewrite Hcoll2, Hcoll1.
    destruct (ObjectId docName) as [oid0|].
    + split; [apply healed_kept|].
      split; [apply kept_or_stripped_snapshot, healed_kept|].
      apply healed_twice.
    + split; [apply kept_or_stripped_refl|done].
  - unfold fixCorruptedDocument. unfold_async.
    rewrite (connect_unreachable (record_call _ m)) by done.
    cbn [snd].
    rewrite (connect_unreachable (record_call _ (record_call _ m))) by done.
    split; [apply kept_or_stripped_refl|done].
Qed.

End PersistenceMore.

(** ** The hooks, further *)

Section HooksMore.
Context `{Yjs} `{Bson}.

Lemma extract_again (d : Doc) :
  snd (extractTextFromYDoc (snd (extractTextFromYDoc d)))
  = snd (extractTextFromYDoc d).
Proof.
  unfold extractTextFromYDoc.
  destruct (extract_try d) as [[text|e] d'] eqn:Hfirst; simpl;
    by rewrite (extract_try_twice _ _ _ Hfirst).
Qed.

(** With the guard set and no timer pending, no event does anything. *)
Lemma run_stalled docName (w : World) evs :
  isInitialLoad (binding w) = true ->
  timeout_due (binding w) = None ->
  run docName w evs = w.
Proof.
  intros Hinit Hdue. unfold run.
  induction evs as [|[t e] evs IH]; [done|].
  cbn [fold_left].
  assert (Hstep : step docName w (t, e) = w).
  { unfold step. destruct e as [update origin|].
    - destruct (listener_registered (binding w)); [|done].
      unfold Hooks.on_update. rewrite Hinit. by destruct w.
    - by rewrite Hdue. }
  by rewrite Hstep.
Qed.

(** X12.  A [bindState] that throws leaves the document without
    persistence for good.  When [getYDoc] rejects, the listener is not
    registered; when [Y.applyUpdate] throws, the listener is registered but
    the timer that clears [isInitialLoad] is never set.  Either way no
    update event and no timer event that follows changes the persistence
    state: nothing is stored for this document through its listener. *)
Theorem rejected_bindState_disables_persistence
  (docName : string) (ydoc : Doc) (now : Z) (m : Mongo)
  (e : Error) (b : Binding) (d : Doc) (m1 : Mongo) (evs : list (Z * Event)) :
  Hooks.bindState docName ydoc now m = (Throw e, b, d, m1) ->
  run docName {| binding := b; shared_doc := d; mongo := m1 |} evs
  = {| binding := b; shared_doc := d; mongo := m1 |}.
Proof.
  intros Hbind. apply run_stalled; cbn [binding].
  all: unfold Hooks.bindState in Hbind;
    destruct (Hooks.mdb_getYDoc docName now m) as [[persistedYdoc|e'] m'];
    [|by injection Hbind as <- <- <- <-];
    destruct (extractTextFromYDoc persistedYdoc) as [persistedText p'];
    destruct (extractTextFromYDoc ydoc) as [currentText y1];
    destruct (0 <? String.length persistedText)%nat;
    [destruct (applyUpdate y1 (encodeStateAsUpdate p')) as [[[]|e''] y2];
     [|by injection Hbind as <- <- <- <-]|];
    destruct (extractTextFromYDoc _) as [afterText y3]; done.
Qed.

(** X13.  [bindState] takes over a persisted snapshot only if the extractor
    reads text from it.  When the text extracted from the document that
    [getYDoc] loads is empty (there is no record, or the snapshot holds
    content that the extractor does not see, such as the entries of a map),
    [bindState] completes without applying anything: the live document
    keeps its struct store and gains only the names that the extractor
    registers, the listener is registered with the guard set, and the timer
    is due [guard_delay] later. *)
Theorem bindState_ignores_snapshot_without_text
  (docName : string) (ydoc : Doc) (now : Z) (m : Mongo) (oid : N) :
  available m ->
  ObjectId docName = Some oid ->
  fst (extractTextFromYDoc (loaded (collection m !! oid))) = "" ->
  exists m',
    Hooks.bindState docName ydoc now m
    = (Ok tt,
       {| listener_registered := true; isInitialLoad := true;
          hasAppliedPersistedState := false;
          timeout_due := Some (now + guard_delay)%Z |},
       snd (extractTextFromYDoc ydoc), m') /\
    store (snd (extractTextFromYDoc ydoc)) = store ydoc /\
    collection m' = healed oid now (collection m).
Proof.
  intros Hav Hid Htext.
  destruct (getYDoc_available docName now m Hav)
    as (m' & Hcall & _ & _ & Hcoll).
  rewrite Hid in Hcall, Hcoll.
  exists m'. split; [|split; [apply extractTextFromYDoc_store|done]].
  unfold Hooks.bindState, Hooks.mdb_getYDoc. rewrite Hcall.
  destruct (extractTextFromYDoc (loaded (collection m !! oid)))
    as [persistedText p']. simpl in Htext. subst persistedText.
  pose proof (extract_again ydoc) as Hagain.
  destruct (extractTextFromYDoc ydoc) as [currentText y1].
  cbn [String.length Nat.ltb Nat.leb snd] in *.
  destruct (extractTextFromYDoc y1) as [afterText y3]. simpl in Hagain.
  by subst y3.
Qed.

(** X14.  [bindState] never writes a snapshot.  Whatever the live document
    and the store are, after [bindState] the persistence state is the one
    that [getYDoc] leaves, no record is added or removed, and the snapshot
    that can be read from each record is the one before the call. *)
Theorem bindState_keeps_every_snapshot
  (docName : string) (ydoc : Doc) (now : Z) (m : Mongo) (oid : N) :
  snd (Hooks.bindState docName ydoc now m)
  = snd (CustomMongoPersistence.getYDoc docName now m) /\
  option_Forall2 kept_or_stripped
    (collection m !! oid)
    (collection (snd (Hooks.bindState docName ydoc now m)) !! oid) /\
  persisted_snapshot
    (collection (snd (Hooks.bindState docName ydoc now m)) !! oid)
  = persisted_snapshot (collection m !! oid).
Proof.
  assert (Hsame : snd (Hooks.bindState docName ydoc now m)
                  = snd (CustomMongoPersistence.getYDoc docName now m)).
  { unfold Hooks.bindState, Hooks.mdb_getYDoc.
    destruct (CustomMongoPersistence.getYDoc docName now m)
      as [[persistedYdoc|e'] m']; [|done].
    destruct (extractTextFromYDoc persistedYdoc) as [persistedText p'].
    destruct (extractTextFromYDoc ydoc) as [currentText y1].
    destruct (0 <? String.length persistedText)%nat.
    - destruct (applyUpdate y1 (encodeStateAsUpdate p')) as [[[]|e''] y2];
        [|done].
      by destruct (extractTextFromYDoc y2).
    - by destruct (extractTextFromYDoc y1). }
  rewrite Hsame. split; [done|].
  split; [apply getYDoc_kept|].
  apply kept_or_stripped_snapshot, getYDoc_kept.
Qed.

(** One turn of the event loop leaves the records of other documents, the
    struct store of the shared document and the registration of the
    listener as they are. *)
Lemma step_isolated docName (w : World) ev oid' :
  ObjectId docName <> Some oid' ->
  collection (mongo (step docName w ev)) !! oid' = collection (mongo w) !! oid' /\
  store (shared_doc (step docName w ev)) = store (shared_doc w) /\
  listener_registered (binding (step docName w ev))
  = listener_registered (binding w).
Proof.
  intros Hother. unfold step. destruct ev as [t [update origin|]].
  - destruct (listener_registered (binding w)) eqn:Hreg; [|done].
    unfold Hooks.on_update. destruct (isInitialLoad (binding w)); [done|].
    pose proof (storeUpdate_frame
                  docName update t (mongo w) oid' Hother) as Hframe.
    unfold Hooks.mdb_storeUpdate.
    destruct (CustomMongoPersistence.storeUpdate docName update t (mongo w))
      as [r m1]. simpl in *. split; [done|]. split; [|done].
    unfold logTextBeforeSave. apply extractTextFromYDoc_store.
  - destruct (timeout_due (binding w)) as [due|]; [|done].
    by destruct (due <=? t)%Z.
Qed.

(** X15.  The session of one document stays with that document.  Whatever
    update and timer events follow, in whatever order and at whatever
    times, the record of every other identifier is the one the session
    started with, the listener never changes the struct store of the shared
    document, and it stays registered or unregistered as it was. *)
Theorem session_leaves_other_records
  (docName : string) (w : World) (evs : list (Z * Event)) (oid' : N) :
  ObjectId docName <> Some oid' ->
  collection (mongo (run docName w evs)) !! oid' = collection (mongo w) !! oid' /\
  store (shared_doc (run docName w evs)) = store (shared_doc w) /\
  listener_registered (binding (run docName w evs))
  = listener_registered (binding w).
Proof.
  intros Hother. unfold run. revert w.
  induction evs as [|ev evs IH]; intros w; [done|].
  cbn [fold_left].
  destruct (IH (step docName w ev)) as (Hc & Hs & Hl).
  destruct (step_isolated docName w ev oid' Hother) as (Hc' & Hs' & Hl').
  repeat split; congruence.
Qed.

(** X16.  Releasing the store on a signal does not disable the persistence
    object.  After the handler has run the connection is closed; a
    [writeState] that comes later (the server closes its connections only
    after [destroy]) finds [isConnected] cleared, connects again and writes
    its snapshot, as long as the store can still be reached. *)
Theorem writeState_after_signal_reconnects
  (p : Process) (docName : string) (ydoc : Doc) (now : Z) (oid : N) :
  reachable (mdb p) = true ->
  ObjectId docName = Some oid ->
  (0 < length (encodeStateAsUpdate ydoc))%nat ->
  isConnected (mdb (on_signal p)) = false /\
  exists m',
    CustomMongoPersistence.writeState docName ydoc now (mdb (on_signal p))
    = (Ok tt, m') /\
    isConnected m' = true /\
    collection m'
    = <[oid := {| stateVector := Some (FBinary (encodeStateAsUpdate ydoc));
                  updatedAt := now |}]> (collection (mdb p)).
Proof.
  intros Hreach Hid Hlen.
  assert (Hdown : isConnected (mdb (on_signal p)) = false /\
                  reachable (mdb (on_signal p)) = true /\
                  collection (mdb (on_signal p)) = collection (mdb p)).
  { unfold on_signal, CustomMongoPersistence.destroy, disconnect.
    unfold_async. cbn [isConnected record_call mdb].
    destruct (isConnected (mdb p)) eqn:Hc; simpl; by rewrite ?Hc. }
  destruct Hdown as (Hc & Hr & Hcoll). split; [done|].
  assert (Hav : available (mdb (on_signal p))) by (by right).
  pose proof (mdb_writeState_decision docName ydoc now _ oid Hav Hid) as Hwrote.
  apply Nat.ltb_lt in Hlen. rewrite Hlen, Hcoll in Hwrote.
  destruct (writeState_available docName ydoc now _ Hav)
    as (m' & Hcall & Hconn & _).
  rewrite Hcall in *. by exists m'.
Qed.

End HooksMore.

(** ** The client *)

Lemma provider_run_cons st ev evs :
  provider_run st (ev :: evs) = provider_run (provider_step st ev) evs.
Proof. done. Qed.

(** What the handlers of a provider keep true. *)
Lemma provider_invariant st evs :
  consecutiveAuthFailures st = (if hasShownAuthError st then 1 else 0)%nat ->
  reconnection_stops st = 0%nat ->
  let st' := provider_run st evs in
  consecutiveAuthFailures st' = (if hasShownAuthError st' then 1 else 0)%nat /\
  reconnection_stops st' = 0%nat /\
  (length (toasts st') + (if hasShownAuthError st' then 0 else 1)
   <= length (toasts st) + (if hasShownAuthError st then 0 else 1)
      + connections evs)%nat.
Proof.
  revert st. induction evs as [|ev evs IH]; intros st Hcount Hstops.
  - simpl. repeat split; [done..|]. unfold connections. simpl. lia.
  - rewrite provider_run_cons.
    assert (Hstep :
      consecutiveAuthFailures (provider_step st ev)
      = (if hasShownAuthError (provider_step st ev) then 1 else 0)%nat /\
      reconnection_stops (provider_step st ev) = 0%nat /\
      (length (toasts (provider_step st ev))
       + (if hasShownAuthError (provider_step st ev) then 0 else 1)
       <= length (toasts st) + (if hasShownAuthError st then 0 else 1)
          + connections [ev])%nat).
    { destruct ev as [status|isSynced|code reason]; simpl.
      - unfold connections. simpl.
        destruct (String.eqb status "connected"); simpl;
          repeat split; try done; destruct (hasShownAuthError st); lia.
      - unfold connections. simpl. repeat split; try done. lia.
      - unfold on_close, connections. simpl.
        destruct ((code =? 1008)%Z); simpl;
          [|repeat split; try done; lia].
        destruct (hasShownAuthError st) eqn:Hflag; simpl;
          [repeat split; try done; rewrite ?Hflag; lia|].
        rewrite Hcount. simpl. repeat split; [done|].
        rewrite length_app. simpl. lia. }
    destruct Hstep as (Hc1 & Hs1 & Ht1).
    destruct (IH (provider_step st ev) Hc1 Hs1) as (Hc2 & Hs2 & Ht2).
    repeat split; [done..|].
    assert (Hsplit : connections (ev :: evs)
                     = (connections [ev] + connections evs)%nat).
    { unfold connections. change (ev :: evs) with ([ev] ++ evs)%list.
      by rewrite List.filter_app, length_app. }
    lia.
Qed.

(** X17.  The close handler of a provider never stops the reconnection.
    A close with code 1008 is counted only while [hasShownAuthError] is
    clear, and sets it; the flag and the counter are cleared together on
    ['connected'].  So the counter never passes 1, the branch for three
    failures in a row ([provider.shouldConnect = false] and
    [provider.disconnect()]) is never taken, and the user sees at most one
    error message per connection that was established, plus one. *)
Theorem close_handler_never_stops_reconnection (evs : list ProviderEvent) :
  reconnection_stops (provider_run provider_created evs) = 0%nat /\
  (consecutiveAuthFailures (provider_run provider_created evs) <= 1)%nat /\
  (length (toasts (provider_run provider_created evs))
   <= 1 + connections evs)%nat.
Proof.
  destruct (provider_invariant provider_created evs eq_refl eq_refl)
    as (Hc & Hs & Ht).
  split; [done|]. split.
  - rewrite Hc. destruct (hasShownAuthError _); lia.
  - simpl in Ht. destruct (hasShownAuthError _); lia.
Qed.

Lemma gate_run_cons g reading readings :
  gate_run g (reading :: readings) = gate_run (tick reading g) readings.
Proof. done. Qed.

Lemma changes_only_snoc calls x :
  changes_only calls -> last calls <> Some x -> changes_only (calls ++ [x]).
Proof.
  intros Hcalls Hlast i a b Ha Hb.
  destruct (decide (S i < length calls)%nat) as [Hlt|Hge].
  - rewrite lookup_app_l in Ha by lia. rewrite lookup_app_l in Hb by lia.
    by apply (Hcalls i).
  - assert (Hi : S i = length calls).
    { apply lookup_lt_Some in Hb. rewrite length_app in Hb. simpl in Hb. lia. }
    rewrite lookup_app_l in Ha by lia.
    rewrite lookup_app_r in Hb by lia.
    replace (S i - length calls)%nat with 0%nat in Hb by lia.
    injection Hb as <-. intros ->. apply Hlast.
    rewrite last_lookup. by replace (pred (length calls)) with i by lia.
Qed.

Lemma tick_invariant reading g :
  lastEditable g = last (setEditable_calls g) ->
  changes_only (setEditable_calls g) ->
  lastEditable (tick reading g) = last (setEditable_calls (tick reading g)) /\
  changes_only (setEditable_calls (tick reading g)).
Proof.
  intros Hlast Hcalls. unfold tick. destruct (cancelled g); [done|].
  destruct (bool_decide (lastEditable g = Some _)) eqn:Hsame; [done|].
  apply bool_decide_eq_false in Hsame. cbn [lastEditable setEditable_calls].
  split; [by rewrite last_snoc|].
  apply changes_only_snoc; [done|]. by rewrite <- Hlast.
Qed.

(** X18.  The editing gate calls [editor.setEditable] only on a change.
    Whatever [window.__Y_SYNCED__] reads at each tick, no two calls in a row
    have the same argument, and [lastEditable] is the argument of the last
    call; when the effect has not been cleaned up, it is [true] after a
    tick exactly if the flag read [true] at that tick.  After the clean-up
    a tick does nothing. *)
Theorem gate_calls_setEditable_on_change
  (readings : list (option bool)) (reading : option bool) :
  changes_only (setEditable_calls (gate_run gate_mounted readings)) /\
  lastEditable (gate_run gate_mounted readings)
  = last (setEditable_calls (gate_run gate_mounted readings)) /\
  lastEditable (gate_run gate_mounted (readings ++ [reading]))
  = Some (bool_decide (reading = Some true)) /\
  gate_run (gate_unmounted (gate_run gate_mounted readings)) [reading]
  = gate_unmounted (gate_run gate_mounted readings).
Proof.
  assert (Hinv : forall g,
            lastEditable g = last (setEditable_calls g) ->
            changes_only (setEditable_calls g) ->
            cancelled g = false ->
            lastEditable (gate_run g readings)
            = last (setEditable_calls (gate_run g readings)) /\
            changes_only (setEditable_calls (gate_run g readings)) /\
            cancelled (gate_run g readings) = false).
  { induction readings as [|r readings IH]; intros g Hlast Hcalls Hc; [done|].
    rewrite gate_run_cons.
    destruct (tick_invariant r g Hlast Hcalls) as [Hlast' Hcalls'].
    apply IH; [done|done|].
    unfold tick. rewrite Hc. by destruct (bool_decide _). }
  destruct (Hinv gate_mounted) as (Hlast & Hcalls & Hc); [done| |done|].
  { intros i x y Hx. by destruct i. }
  split; [done|]. split; [done|]. split.
  - unfold gate_run. rewrite fold_left_app. cbn [fold_left].
    fold (gate_run gate_mounted readings). unfold tick. rewrite Hc.
    destruct (bool_decide (lastEditable _ = Some _)) eqn:Hsame; [|done].
    by apply bool_decide_eq_true in Hsame.
  - done.
Qed.

Lemma client_run_cons c ev evs :
  client_run c (ev :: evs) = client_run (client_step c ev) evs.
Proof. done. Qed.

(** X19.  The editor is not editable before the provider has reported a
    sync.  From the creation of a provider and the mount of the gate on, as
    long as no ['sync'] event with a true argument has come, every call of
    [editor.setEditable] has the argument [false], whatever else happens:
    status changes, closes of the socket, ticks.  With such an event the
    next tick makes the editor editable. *)
Theorem editor_is_locked_until_sync (evs : list ClientEvent) :
  Forall (fun ev => ev <> FromProvider (SyncEvent true)) evs ->
  Forall (fun ready => ready = false)
    (setEditable_calls (snd (client_run (provider_created, gate_mounted) evs)))
  /\
  lastEditable
    (snd (client_run (provider_created, gate_mounted)
            (evs ++ [FromProvider (SyncEvent true); Tick])))
  = Some true.
Proof.
  intros Hevs.
  assert (Hinv : forall c,
            Y_SYNCED (fst c) = false ->
            Forall (fun ready => ready = false) (setEditable_calls (snd c)) ->
            cancelled (snd c) = false ->
            Y_SYNCED (fst (client_run c evs)) = false /\
            Forall (fun ready => ready = false)
              (setEditable_calls (snd (client_run c evs))) /\
            cancelled (snd (client_run c evs)) = false).
  { induction evs as [|ev evs IH]; intros [st g] Hflag Hcalls Hc; [done|].
    apply Forall_cons in Hevs as [Hev Hevs].
    rewrite client_run_cons. apply IH; [done|..].
    - destruct ev as [[status|isSynced|code reason]|]; simpl in *; try done.
      + by destruct isSynced.
      + unfold on_close. by destruct (_ && _).
    - destruct ev as [ev|]; simpl in *; [done|].
      unfold tick. rewrite Hc, Hflag.
      destruct (bool_decide (lastEditable g = Some _)); [done|].
      simpl. apply Forall_app. split; [done|]. by repeat constructor.
    - destruct ev as [ev|]; simpl in *; [done|].
      unfold tick. rewrite Hc. by destruct (bool_decide _). }
  destruct (Hinv (provider_created, gate_mounted)) as (_ & Hcalls & Hc);
    [done|by constructor|done|].
  split; [done|].
  unfold client_run in *. rewrite fold_left_app. cbn [fold_left].
  destruct (fold_left client_step evs (provider_created, gate_mounted))
    as [st g]. simpl in Hc. simpl. unfold tick. rewrite Hc.
  destruct (bool_decide (lastEditable g = Some _)) eqn:Hsame; [|done].
  by apply bool_decide_eq_true in Hsame.
Qed.

(** ** The extractor on the documents of the server *)

Lemma append_empty (s : string) : s +:+ "" = s.
Proof.
  induction s as [|a s IH]; [done|].
  change (String a (s +:+ "") = String a s). by f_equal.
Qed.

Lemma share_set_Forall (Q : SharedType -> Prop) name t sh :
  Forall (fun e => Q (snd e)) sh -> Q t ->
  Forall (fun e => Q (snd e)) (share_set name t sh).
Proof.
  intros Hsh Ht. induction Hsh as [|[k t'] rest Hk Hrest IH]; simpl.
  - by repeat constructor.
  - destruct (String.eqb k name); by constructor.
Qed.

Lemma share_get_Forall (Q : SharedType -> Prop) name t sh :
  Forall (fun e => Q (snd e)) sh -> share_get name sh = Some t -> Q t.
Proof.
  intros Hsh. induction Hsh as [|[k t'] rest Hk Hrest IH]; simpl; [done|].
  destruct (String.eqb k name); [|done]. by intros [= <-].
Qed.

Lemma fallback_text_silent sh :
  Forall (fun e => fallback_entry_text (snd e) = "") sh ->
  fallback_text sh = "".
Proof.
  unfold fallback_text. generalize "" at 2 3 as acc. intros acc Hsh. revert acc.
  induction Hsh as [|e rest He Hrest IH]; intros acc; simpl; [done|].
  by rewrite He, append_empty.
Qed.

(** X20.  Text under a name of its own is not seen on the server.  A
    document that was built by [Y.applyUpdate] alone has its root types
    registered as plain [AbstractType]s.  If none of them is called
    ['content'], ['lexical'] or ['editor'] and none has entries in its
    [_map], the extractor returns [""], whatever the chains of these types
    hold. *)
Theorem text_under_other_names_is_not_seen {Store} (d : YDoc Store) :
  share_get "content" (share d) = None ->
  share_get "lexical" (share d) = None ->
  share_get "editor" (share d) = None ->
  Forall (fun e => ctor (snd e) = AbstractType /\ _map (snd e) = []) (share d) ->
  fst (extractTextFromYDoc d) = "".
Proof.
  intros Hc Hl He Hplain.
  assert (Hsilent : forall t,
            ctor t = AbstractType /\ _map t = [] \/ t = new_type YText ->
            fallback_entry_text t = "").
  { intros t [[Ha Hm]| ->]; [|done].
    unfold fallback_entry_text. rewrite Ha, Hm. done. }
  assert (Hquiet : Forall (fun e => fallback_entry_text (snd e) = "") (share d)).
  { eapply Forall_impl; [exact Hplain|]. intros e Hq. apply Hsilent. by left. }
  unfold extractTextFromYDoc, extract_try.
  rewrite (getText_absent _ _ Hc).
  change (0 <? type_length (new_type YText))%nat with false. cbv iota.
  set (d1 := with_share d _).
  assert (Hl1 : share_get "lexical" (share d1) = None)
    by (unfold d1; simpl; by rewrite share_get_set_ne).
  assert (He1 : share_get "editor" (share d1) = None)
    by (unfold d1; simpl; by rewrite share_get_set_ne).
  assert (Hr1 : share_get "root" (share d1) = share_get "root" (share d))
    by (unfold d1; simpl; by rewrite share_get_set_ne).
  assert (Hq1 : Forall (fun e => fallback_entry_text (snd e) = "") (share d1))
    by (unfold d1; simpl; by apply (share_set_Forall (fun t => fallback_entry_text t = ""))).
  clearbody d1.
  rewrite (getText_absent _ _ Hl1).
  change (0 <? type_length (new_type YText))%nat with false. cbv iota.
  set (d2 := with_share d1 _).
  assert (He2 : share_get "editor" (share d2) = None)
    by (unfold d2; simpl; by rewrite share_get_set_ne).
  assert (Hr2 : share_get "root" (share d2) = share_get "root" (share d))
    by (unfold d2; simpl; by rewrite share_get_set_ne).
  assert (Hq2 : Forall (fun e => fallback_entry_text (snd e) = "") (share d2))
    by (unfold d2; simpl; by apply (share_set_Forall (fun t => fallback_entry_text t = ""))).
  clearbody d2.
  unfold get. rewrite Hr2.
  destruct (share_get "root" (share d)) as [rootAbstract|] eqn:Hroot.
  - destruct (share_get_Forall (fun t => ctor t = AbstractType /\ _map t = [])
                _ _ _ Hplain Hroot) as [Ha Hm].
    unfold root_text. rewrite (bool_decide_eq_true_2 _ Ha), Hm.
    cbn [root_children_text].
    rewrite (getText_absent _ _ He2).
    change (0 <? type_length (new_type YText))%nat with false. cbv iota.
    cbn [fst share with_share]. apply fallback_text_silent.
    by apply (share_set_Forall (fun t => fallback_entry_text t = "")).
  - change (root_text (new_type AbstractType)) with (@None string).
    cbv iota.
    set (d3 := with_share d2 _).
    assert (He3 : share_get "editor" (share d3) = None)
      by (unfold d3; simpl; by rewrite share_get_set_ne).
    assert (Hq3 : Forall (fun e => fallback_entry_text (snd e) = "") (share d3))
      by (unfold d3; simpl; by apply (share_set_Forall (fun t => fallback_entry_text t = ""))).
    clearbody d3.
    rewrite (getText_absent _ _ He3).
    change (0 <? type_length (new_type YText))%nat with false. cbv iota.
    cbn [fst share with_share]. apply fallback_text_silent.
    by apply (share_set_Forall (fun t => fallback_entry_text t = "")).
Qed.

(** ** The properties above on sample inputs *)

Lemma extractTextFromYDoc_content_of_other_class_witness :
  share_get "content" (share Inputs.clashing_doc) = Some (new_type YMap) /\
  extractTextFromYDoc Inputs.clashing_doc = ("", Inputs.clashing_doc).
Proof.
  split; [reflexivity|].
  apply (extractTextFromYDoc_content_of_other_class
           Inputs.clashing_doc (new_type YMap));
    [reflexivity|discriminate|discriminate].
Defined.

Lemma extractTextFromYDoc_content_first_witness :
  fst (extractTextFromYDoc Inputs.embed_doc) = "" /\
  map fst (share (snd (extractTextFromYDoc Inputs.embed_doc))) = ["content"].
Proof.
  destruct (extractTextFromYDoc_content_first Inputs.embed_doc
              {| ctor := AbstractType; _map := [];
                 _start := [ {| content := ContentOther true 1;
                                deleted := false |} ];
                 _item := None; xml_string := ""; xml_children := [] |})
    as (Htext & Hnames & _);
    [reflexivity|by right|vm_compute; lia|].
  split; [exact Htext|exact Hnames].
Defined.

Lemma methods_reject_when_store_is_unreachable_witness :
  @CustomMongoPersistence.getYDoc Sample.log_engine Sample.hex_bson
    Sample.doc_id 7 Sample.unreachable_mongo
  = (Throw MongoConnectError,
     record_call (CallGetYDoc Sample.doc_id) Sample.unreachable_mongo) /\
  @CustomMongoPersistence.writeState Sample.log_engine Sample.hex_bson
    Sample.doc_id Sample.server_replica 7 Sample.unreachable_mongo
  = (Throw MongoConnectError,
     record_call (CallWriteState Sample.doc_id) Sample.unreachable_mongo).
Proof.
  destruct (@methods_reject_when_store_is_unreachable
              Sample.log_engine Sample.hex_bson Sample.doc_id [x02]
              Sample.server_replica 7 Sample.unreachable_mongo
              eq_refl eq_refl) as (Hget & _ & Hwrite & _).
  split; [exact Hget|exact Hwrite].
Defined.

Lemma methods_resolve_when_store_is_available_witness :
  available Sample.fresh_mongo /\
  exists m',
    @CustomMongoPersistence.storeUpdate Sample.log_engine Sample.hex_bson
      "doc1" [xff] 7 Sample.fresh_mongo = (Ok tt, m') /\
    isConnected m' = true.
Proof.
  split; [by right|].
  exact (proj1 (@methods_resolve_when_store_is_available
                  Sample.log_engine Sample.hex_bson "doc1" [xff]
                  Sample.server_replica 7 Sample.fresh_mongo
                  (or_intror eq_refl))).
Defined.

Lemma methods_leave_other_records_witness :
  collection
    (snd (@CustomMongoPersistence.storeUpdate Sample.log_engine Sample.hex_bson
            Inputs.other_id (Sample.frame [x01]) 7
            (Sample.mongo_with (Some (FBinary (Sample.frame [x02]))) 3)))
    !! Sample.doc_oid
  = Some {| stateVector := Some (FBinary (Sample.frame [x02]));
            updatedAt := 3 |}.
Proof.
  refine (proj1 (proj2 (@methods_leave_other_records
                          Sample.log_engine Sample.hex_bson
                          Inputs.other_id (Sample.frame [x01])
                          Sample.server_replica 7
                          (Sample.mongo_with
                             (Some (FBinary (Sample.frame [x02]))) 3)
                          Sample.doc_oid _))).
  vm_compute. discriminate.
Defined.

Lemma getYDoc_after_writeState_witness :
  exists m',
    @CustomMongoPersistence.getYDoc Sample.log_engine Sample.hex_bson
      Sample.doc_id 9
      (snd (@CustomMongoPersistence.writeState
              Sample.log_engine Sample.hex_bson
              Sample.doc_id Sample.client_replica 7 Sample.fresh_mongo))
    = (Ok Sample.server_replica, m') /\
    collection m'
    = <[Sample.doc_oid := {| stateVector := Some (FBinary (Sample.frame [x01]));
                             updatedAt := 7 |}]> ∅.
Proof.
  apply (@getYDoc_after_writeState Sample.log_engine Sample.hex_bson
           Sample.doc_id Sample.client_replica 7 9 Sample.fresh_mongo
           Sample.doc_oid);
    [by right|reflexivity|vm_compute; lia].
Defined.

Lemma unreadable_snapshot_is_never_replaced_witness :
  collection
    (@storeUpdates Sample.log_engine Sample.hex_bson Sample.doc_id
       [(Sample.frame [x01], 5%Z); (Sample.frame [x02], 6%Z)]
       (Sample.mongo_with (Some (FBinary [xff])) 3))
  = collection (Sample.mongo_with (Some (FBinary [xff])) 3).
Proof.
  exact (proj1 (@unreadable_snapshot_is_never_replaced
                  Sample.log_engine Sample.hex_bson Sample.doc_id
                  [(Sample.frame [x01], 5%Z); (Sample.frame [x02], 6%Z)] 9
                  (Sample.mongo_with (Some (FBinary [xff])) 3)
                  Sample.doc_oid (or_introl eq_refl) eq_refl eq_refl)).
Defined.

Lemma rejected_bindState_disables_persistence_witness :
  @run Sample.log_engine Sample.hex_bson Sample.doc_id Inputs.stalled_world
    [(10%Z, UpdateEvent (Sample.frame [x02]) None); (2500%Z, TimeoutEvent);
     (3000%Z, UpdateEvent (Sample.frame [x03]) (Some 4%nat))]
  = Inputs.stalled_world.
Proof.
  apply (@rejected_bindState_disables_persistence
           Sample.log_engine Sample.hex_bson Sample.doc_id
           Sample.server_replica 0 Sample.unreachable_mongo
           MongoConnectError).
  reflexivity.
Defined.

Lemma bindState_ignores_snapshot_without_text_witness :
  @loaded Sample.log_engine
    (collection (Sample.mongo_with (Some (FBinary (Sample.frame [x03]))) 3)
       !! Sample.doc_oid)
  = {| store := [x03];
       share := [("data",
                  {| ctor := AbstractType;
                     _map := [("k", {| content := ContentOther true 1;
                                       deleted := false |})];
                     _start := []; _item := None; xml_string := "";
                     xml_children := [] |})] |} /\
  exists m',
    @Hooks.bindState Sample.log_engine Sample.hex_bson Sample.doc_id
      Sample.server_replica 7
      (Sample.mongo_with (Some (FBinary (Sample.frame [x03]))) 3)
    = (Ok tt,
       {| listener_registered := true; isInitialLoad := true;
          hasAppliedPersistedState := false;
          timeout_due := Some (7 + guard_delay)%Z |},
       snd (extractTextFromYDoc Sample.server_replica), m') /\
    store (snd (extractTextFromYDoc Sample.server_replica)) = [x01] /\
    collection m'
    = healed Sample.doc_oid 7
        (collection
           (Sample.mongo_with (Some (FBinary (Sample.frame [x03]))) 3)).
Proof.
  split; [reflexivity|].
  apply (@bindState_ignores_snapshot_without_text
           Sample.log_engine Sample.hex_bson Sample.doc_id
           Sample.server_replica 7
           (Sample.mongo_with (Some (FBinary (Sample.frame [x03]))) 3)
           Sample.doc_oid);
    [by left|reflexivity|reflexivity].
Defined.

Lemma session_leaves_other_records_witness :
  collection
    (mongo (@run Sample.log_engine Sample.hex_bson Inputs.other_id
              Inputs.active_world
              [(2500%Z, UpdateEvent (Sample.frame [x01]) None);
               (2600%Z, UpdateEvent (Sample.frame [x03]) (Some 4%nat))]))
    !! Sample.doc_oid
  = Some {| stateVector := Some (FBinary (Sample.frame [x02]));
            updatedAt := 3 |}.
Proof.
  refine (proj1 (@session_leaves_other_records
                   Sample.log_engine Sample.hex_bson Inputs.other_id
                   Inputs.active_world
                   [(2500%Z, UpdateEvent (Sample.frame [x01]) None);
                    (2600%Z, UpdateEvent (Sample.frame [x03]) (Some 4%nat))]
                   Sample.doc_oid _)).
  vm_compute. discriminate.
Defined.

Lemma writeState_after_signal_reconnects_witness :
  isConnected (mdb (@on_signal Sample.log_engine Sample.running)) = false /\
  exists m',
    @CustomMongoPersistence.writeState Sample.log_engine Sample.hex_bson
      Sample.doc_id Sample.server_replica 9
      (mdb (@on_signal Sample.log_engine Sample.running))
    = (Ok tt, m') /\
    isConnected m' = true /\
    collection m'
    = <[Sample.doc_oid := {| stateVector := Some (FBinary (Sample.frame [x01]));
                             updatedAt := 9 |}]>
        (collection (mdb Sample.running)).
Proof.
  apply (@writeState_after_signal_reconnects
           Sample.log_engine Sample.hex_bson Sample.running
           Sample.doc_id Sample.server_replica 9 Sample.doc_oid);
    [reflexivity|reflexivity|vm_compute; lia].
Defined.

Lemma editor_is_locked_until_sync_witness :
  Forall (fun ready => ready = false)
    (setEditable_calls
       (snd (client_run (provider_created, gate_mounted)
               [Tick; FromProvider (StatusEvent "connected"); Tick;
                FromProvider (SyncEvent false);
                FromProvider (CloseEvent 1008 "Authentication failed");
                Tick]))).
Proof.
  refine (proj1 (editor_is_locked_until_sync
                   [Tick; FromProvider (StatusEvent "connected"); Tick;
                    FromProvider (SyncEvent false);
                    FromProvider (CloseEvent 1008 "Authentication failed");
                    Tick] _)).
  repeat constructor; discriminate.
Defined.

Lemma text_under_other_names_is_not_seen_witness :
  share Sample.server_replica
  = [("notes", Sample.text_type AbstractType "hello")] /\
  fst (extractTextFromYDoc Sample.server_replica) = "".
Proof.
  split; [reflexivity|].
  apply (text_under_other_names_is_not_seen Sample.server_replica);
    [reflexivity|reflexivity|reflexivity|].
  repeat constructor.
Defined.

(** ** The providers on [window] *)

(** X21.  Destroying a provider that was replaced unregisters its
    replacement.  When the provider on [window] has no open socket,
    [createWebsocketProvider] disconnects it and registers a new one under
    the same key.  The [destroy] of the old provider deletes that key, and
    with it the new provider: the next call for the document constructs a
    third provider, even if the socket of the second is open. *)
Theorem destroy_of_replaced_provider_unregisters_the_new_one
  (ws_open ws_open' : nat -> bool) (id : string) (w : Window) (old : nat) :
  window_ok w ->
  registered w !! existingProviderKey id = Some old ->
  ws_open old = false ->
  fst (createWebsocketProvider ws_open id w) = constructed w /\
  fst (createWebsocketProvider ws_open id w) <> old /\
  disconnected (snd (createWebsocketProvider ws_open id w))
  = (disconnected w ++ [old])%list /\
  registered (snd (createWebsocketProvider ws_open id w))
    !! existingProviderKey id
  = Some (constructed w) /\
  registered (provider_destroy id (snd (createWebsocketProvider ws_open id w)))
    !! existingProviderKey id
  = None /\
  fst (createWebsocketProvider ws_open' id
         (provider_destroy id (snd (createWebsocketProvider ws_open id w))))
  = S (constructed w).
Proof.
  intros Hok Hold Hclosed.
  unfold createWebsocketProvider at 1 2 3 4 5. rewrite Hold, Hclosed.
  cbn [fst snd registered disconnected constructed].
  split; [done|]. split; [specialize (Hok _ _ Hold); lia|].
  split; [done|]. split; [by rewrite lookup_insert_eq|].
  split; [unfold provider_destroy; simpl; by rewrite lookup_delete_eq|].
  unfold createWebsocketProvider, provider_destroy. simpl.
  rewrite Hold, Hclosed. simpl. by rewrite lookup_delete_eq.
Qed.

(** X22.  The two flags are kept on [window], not with a document.  A call
    of [createWebsocketProvider] that constructs a provider, for whatever
    document, clears [__Y_SYNCED__]; at its next tick the gate of an editor
    that was editable calls [editor.setEditable(false)].  The providers of
    other documents stay registered. *)
Theorem creating_a_provider_locks_the_editor
  (ws_open : nat -> bool) (id : string) (w : Window) (g : Gate) :
  (forall provider, registered w !! existingProviderKey id = Some provider ->
                    ws_open provider = false) ->
  cancelled g = false ->
  lastEditable g = Some true ->
  Y_SYNCED_flag (snd (createWebsocketProvider ws_open id w)) = Some false /\
  tick (Y_SYNCED_flag (snd (createWebsocketProvider ws_open id w))) g
  = {| lastEditable := Some false; cancelled := false;
       setEditable_calls := (setEditable_calls g ++ [false])%list |} /\
  forall key, key <> existingProviderKey id ->
    registered (snd (createWebsocketProvider ws_open id w)) !! key
    = registered w !! key.
Proof.
  intros Hstale Hc Hlast.
  assert (Hflag : Y_SYNCED_flag (snd (createWebsocketProvider ws_open id w))
                  = Some false).
  { unfold createWebsocketProvider.
    destruct (registered w !! existingProviderKey id) as [p|] eqn:Hp; [|done].
    by rewrite (Hstale p eq_refl). }
  split; [done|]. split.
  - rewrite Hflag. unfold tick. by rewrite Hc, Hlast.
  - intros key Hkey. unfold createWebsocketProvider.
    destruct (registered w !! existingProviderKey id) as [p|] eqn:Hp.
    + rewrite (Hstale p eq_refl). simpl. by rewrite lookup_insert_ne.
    + simpl. by rewrite lookup_insert_ne.
Qed.

Lemma destroy_of_replaced_provider_unregisters_the_new_one_witness :
  fst (createWebsocketProvider (fun _ => false) "doc" Inputs.one_provider)
  = 1%nat /\
  fst (createWebsocketProvider (fun _ => true) "doc"
         (provider_destroy "doc"
            (snd (createWebsocketProvider (fun _ => false) "doc"
                    Inputs.one_provider))))
  = 2%nat.
Proof.
  destruct (destroy_of_replaced_provider_unregisters_the_new_one
              (fun _ => false) (fun _ => true) "doc" Inputs.one_provider 0)
    as (Hnew & _ & _ & _ & _ & Hthird).
  - intros key provider. unfold Inputs.one_provider. simpl.
    intros Hkey. apply lookup_singleton_Some in Hkey as [_ <-]. lia.
  - reflexivity.
  - reflexivity.
  - split; [exact Hnew|exact Hthird].
Defined.

Lemma creating_a_provider_locks_the_editor_witness :
  tick (Y_SYNCED_flag
          (snd (createWebsocketProvider (fun _ => true) "other"
                  Inputs.one_provider)))
    Inputs.open_gate
  = {| lastEditable := Some false; cancelled := false;
       setEditable_calls := [false; true; false] |}.
Proof.
  refine (proj1 (proj2 (creating_a_provider_locks_the_editor
                          (fun _ => true) "other" Inputs.one_provider
                          Inputs.open_gate _ eq_refl eq_refl))).
  intros provider Hkey. unfold Inputs.one_provider in Hkey. simpl in Hkey.
  apply lookup_singleton_Some in Hkey as [Hkey _]. discriminate.
Defined.
